(** * OnceDataset: coordinate conventions, annotation access and result
      formatting of [mmdet3d/datasets/once_dataset.py]

    The development embeds the methods of [OnceDataset] as Rocq functions.
    Array entries are real numbers (the exact arithmetic the floating-point
    code approximates), [np.pi] is [PI].  Python exceptions are values of
    [exn]; a method that mutates [self.data_infos] or the file system
    returns the new state next to its outcome. *)

From Stdlib Require Import Reals Lra List String Ascii ZArith Lia Bool.
From Stdlib Require Import DecimalString.
Import ListNotations.

Open Scope string_scope.
Open Scope list_scope.
Open Scope R_scope.

(** ** Exceptions and outcomes *)

Inductive exn : Type :=
| IndexError
| KeyError (key : string)
| ValueError
| TypeError
| AttributeError
| LinAlgError
| UnboundLocalError
| AssertionError (msg : string).

Inductive outcome (A : Type) : Type :=
| Ok (a : A)
| Raise (e : exn).
Arguments Ok {A} a.
Arguments Raise {A} e.

Definition bind {A B : Type} (m : outcome A) (k : A -> outcome B) : outcome B :=
  match m with
  | Ok a => k a
  | Raise e => Raise e
  end.

Notation "x <- m ;; k" := (bind m (fun x => k))
  (at level 61, m at next level, right associativity).
Notation "' p <- m ;; k" := (bind m (fun x => match x with p => k end))
  (at level 61, p pattern, m at next level, right associativity).

(** [for x in l: ...] with a body that may raise: the first exception stops
    the loop. *)
Fixpoint mapM {A B : Type} (f : A -> outcome B) (l : list A) : outcome (list B) :=
  match l with
  | [] => Ok []
  | x :: t => y <- f x ;; ys <- mapM f t ;; Ok (y :: ys)
  end.

(** ** Python containers *)

(** [l[i]] for a Python sequence: a negative index counts from the end. *)
Definition py_getitem {A : Type} (l : list A) (i : Z) : option A :=
  let n := Z.of_nat (List.length l) in
  if (0 <=? i)%Z then nth_error l (Z.to_nat i)
  else if (- n <=? i)%Z then nth_error l (Z.to_nat (n + i))
  else None.

(** The position a valid index denotes. *)
Definition py_position {A : Type} (l : list A) (i : Z) : nat :=
  if (0 <=? i)%Z then Z.to_nat i else Z.to_nat (Z.of_nat (List.length l) + i).

(** [l[n] = v] on the list held by a mutable object. *)
Fixpoint list_set {A : Type} (l : list A) (n : nat) (v : A) : list A :=
  match l, n with
  | [], _ => []
  | _ :: t, O => v :: t
  | x :: t, S m => x :: list_set t m v
  end.

(** A [dict] with string keys, in insertion order. *)
Definition dict (V : Type) : Type := list (string * V).

Fixpoint dict_get {V : Type} (d : dict V) (k : string) : option V :=
  match d with
  | [] => None
  | (k', v) :: t => if String.eqb k' k then Some v else dict_get t k
  end.

Definition dict_mem {V : Type} (d : dict V) (k : string) : bool :=
  match dict_get d k with Some _ => true | None => false end.

(** [d[k] = v]: an existing key keeps its place, a new one goes last. *)
Fixpoint dict_set {V : Type} (d : dict V) (k : string) (v : V) : dict V :=
  match d with
  | [] => [(k, v)]
  | (k', v') :: t =>
      if String.eqb k' k then (k', v) :: t else (k', v') :: dict_set t k v
  end.

Definition dict_keys {V : Type} (d : dict V) : list string := map fst d.

(** [tuple.index(x)]: position of the first occurrence. *)
Fixpoint tuple_index (l : list string) (x : string) : option nat :=
  match l with
  | [] => None
  | y :: t => if String.eqb y x then Some O
              else option_map S (tuple_index t x)
  end.

(** ** Vectors and matrices *)

Definition vec3 : Type := (R * R * R)%type.
Definition mat3 : Type := (vec3 * vec3 * vec3)%type.
Definition vec4 : Type := (R * R * R * R)%type.
Definition mat4 : Type := (vec4 * vec4 * vec4 * vec4)%type.

Definition dot3 (u v : vec3) : R :=
  let '(a, b, c) := u in let '(x, y, z) := v in a * x + b * y + c * z.

(** [M @ v] for a 3x3 matrix and a 3-vector. *)
Definition matvec3 (M : mat3) (v : vec3) : vec3 :=
  let '(r0, r1, r2) := M in (dot3 r0 v, dot3 r1 v, dot3 r2 v).

Definition transpose3 (M : mat3) : mat3 :=
  let '((a0, a1, a2), (b0, b1, b2), (c0, c1, c2)) := M in
  ((a0, b0, c0), (a1, b1, c1), (a2, b2, c2)).

(** [A @ B] for 3x3 matrices. *)
Definition matmul3 (A B : mat3) : mat3 :=
  let '(r0, r1, r2) := A in
  let '(c0, c1, c2) := transpose3 B in
  ((dot3 r0 c0, dot3 r0 c1, dot3 r0 c2),
   (dot3 r1 c0, dot3 r1 c1, dot3 r1 c2),
   (dot3 r2 c0, dot3 r2 c1, dot3 r2 c2)).

Definition eye3 : mat3 := ((1, 0, 0), (0, 1, 0), (0, 0, 1)).

Definition dot4 (u v : vec4) : R :=
  let '(a, b, c, d) := u in let '(x, y, z, w) := v in
  a * x + b * y + c * z + d * w.

(** [M.T] *)
Definition transpose4 (M : mat4) : mat4 :=
  let '((a0, a1, a2, a3), (b0, b1, b2, b3),
        (c0, c1, c2, c3), (d0, d1, d2, d3)) := M in
  ((a0, b0, c0, d0), (a1, b1, c1, d1), (a2, b2, c2, d2), (a3, b3, c3, d3)).

(** [A @ B] for 4x4 matrices. *)
Definition matmul4 (A B : mat4) : mat4 :=
  let '(r0, r1, r2, r3) := A in
  let '(c0, c1, c2, c3) := transpose4 B in
  ((dot4 r0 c0, dot4 r0 c1, dot4 r0 c2, dot4 r0 c3),
   (dot4 r1 c0, dot4 r1 c1, dot4 r1 c2, dot4 r1 c3),
   (dot4 r2 c0, dot4 r2 c1, dot4 r2 c2, dot4 r2 c3),
   (dot4 r3 c0, dot4 r3 c1, dot4 r3 c2, dot4 r3 c3)).

(** [np.eye(4)] *)
Definition eye4 : mat4 :=
  ((1, 0, 0, 0), (0, 1, 0, 0), (0, 0, 1, 0), (0, 0, 0, 1)).

(** [viewpad = np.eye(4); viewpad[:3, :3] = intrinsic] *)
Definition viewpad_of (intrinsic : mat3) : mat4 :=
  let '((k00, k01, k02), (k10, k11, k12), (k20, k21, k22)) := intrinsic in
  ((k00, k01, k02, 0), (k10, k11, k12, 0), (k20, k21, k22, 0), (0, 0, 0, 1)).

(** The determinant and the adjugate of a 4x4 matrix, through the 2x2 minors
    of its two upper rows ([s]) and of its two lower rows ([c]). *)
Definition det4 (M : mat4) : R :=
  let '((a00, a01, a02, a03), (a10, a11, a12, a13),
        (a20, a21, a22, a23), (a30, a31, a32, a33)) := M in
  let s0 := a00 * a11 - a10 * a01 in
  let s1 := a00 * a12 - a10 * a02 in
  let s2 := a00 * a13 - a10 * a03 in
  let s3 := a01 * a12 - a11 * a02 in
  let s4 := a01 * a13 - a11 * a03 in
  let s5 := a02 * a13 - a12 * a03 in
  let c5 := a22 * a33 - a32 * a23 in
  let c4 := a21 * a33 - a31 * a23 in
  let c3 := a21 * a32 - a31 * a22 in
  let c2 := a20 * a33 - a30 * a23 in
  let c1 := a20 * a32 - a30 * a22 in
  let c0 := a20 * a31 - a30 * a21 in
  s0 * c5 - s1 * c4 + s2 * c3 + s3 * c2 - s4 * c1 + s5 * c0.

Definition adj4 (M : mat4) : mat4 :=
  let '((a00, a01, a02, a03), (a10, a11, a12, a13),
        (a20, a21, a22, a23), (a30, a31, a32, a33)) := M in
  let s0 := a00 * a11 - a10 * a01 in
  let s1 := a00 * a12 - a10 * a02 in
  let s2 := a00 * a13 - a10 * a03 in
  let s3 := a01 * a12 - a11 * a02 in
  let s4 := a01 * a13 - a11 * a03 in
  let s5 := a02 * a13 - a12 * a03 in
  let c5 := a22 * a33 - a32 * a23 in
  let c4 := a21 * a33 - a31 * a23 in
  let c3 := a21 * a32 - a31 * a22 in
  let c2 := a20 * a33 - a30 * a23 in
  let c1 := a20 * a32 - a30 * a22 in
  let c0 := a20 * a31 - a30 * a21 in
  ((  a11 * c5 - a12 * c4 + a13 * c3,
    - a01 * c5 + a02 * c4 - a03 * c3,
      a31 * s5 - a32 * s4 + a33 * s3,
    - a21 * s5 + a22 * s4 - a23 * s3),
   (- a10 * c5 + a12 * c2 - a13 * c1,
      a00 * c5 - a02 * c2 + a03 * c1,
    - a30 * s5 + a32 * s2 - a33 * s1,
      a20 * s5 - a22 * s2 + a23 * s1),
   (  a10 * c4 - a11 * c2 + a13 * c0,
    - a00 * c4 + a01 * c2 - a03 * c0,
      a30 * s4 - a31 * s2 + a33 * s0,
    - a20 * s4 + a21 * s2 - a23 * s0),
   (- a10 * c3 + a11 * c1 - a12 * c0,
      a00 * c3 - a01 * c1 + a02 * c0,
    - a30 * s3 + a31 * s1 - a32 * s0,
      a20 * s3 - a21 * s1 + a22 * s0)).

Definition scale4 (k : R) (M : mat4) : mat4 :=
  let '((a00, a01, a02, a03), (a10, a11, a12, a13),
        (a20, a21, a22, a23), (a30, a31, a32, a33)) := M in
  ((k * a00, k * a01, k * a02, k * a03),
   (k * a10, k * a11, k * a12, k * a13),
   (k * a20, k * a21, k * a22, k * a23),
   (k * a30, k * a31, k * a32, k * a33)).

(** [np.linalg.inv(M)]: the inverse matrix, [LinAlgError] on a singular
    one.  This is the exact operation: in floating point the LU pivots
    decide, and a matrix whose real determinant is 0 may still get a matrix
    back; nothing below relies on the raise. *)
Definition linalg_inv (M : mat4) : outcome mat4 :=
  if Req_dec_T (det4 M) 0 then Raise LinAlgError
  else Ok (scale4 (/ det4 M) (adj4 M)).

(** ** Boxes *)

(** One row of an [(N, 7)] box array: centre, dimensions, yaw. *)
Record Box : Type := mkBox {
  cx : R; cy : R; cz : R;
  dx : R; dy : R; dz : R;
  yaw : R
}.

Definition center (b : Box) : vec3 := (cx b, cy b, cz b).
Definition dims (b : Box) : vec3 := (dx b, dy b, dz b).

Definition set_center (b : Box) (v : vec3) : Box :=
  let '(x, y, z) := v in mkBox x y z (dx b) (dy b) (dz b) (yaw b).

Definition set_cz (b : Box) (z : R) : Box :=
  mkBox (cx b) (cy b) z (dx b) (dy b) (dz b) (yaw b).

Definition set_yaw (b : Box) (a : R) : Box :=
  mkBox (cx b) (cy b) (cz b) (dx b) (dy b) (dz b) a.

Definition Tr_lidar_to_standard : mat3 :=
  ((0, -1, 0), (1, 0, 0), (0, 0, 1)).

Definition Tr_standard_to_lidar : mat3 :=
  ((0, 1, 0), (-1, 0, 0), (0, 0, 1)).

(** [a[:, :3] = np.array([Tr @ row for row in a[:, :3]])].
    With no rows the comprehension yields an array of shape [(0,)], which
    numpy cannot broadcast into the [(0, 3)] slice: the assignment raises
    [ValueError] and writes nothing. *)
Definition assign_rotated (Tr : mat3) (a : list Box) : outcome (list Box) :=
  match a with
  | [] => Raise ValueError
  | _ => Ok (map (fun b => set_center b (matvec3 Tr (center b))) a)
  end.

(** [a[:, 6] += np.pi / 2] *)
Definition yaw_add_half_pi (a : list Box) : list Box :=
  map (fun b => set_yaw b (yaw b + PI / 2)) a.

(** [a[:, 6] -= np.pi / 2] *)
Definition yaw_sub_half_pi (a : list Box) : list Box :=
  map (fun b => set_yaw b (yaw b - PI / 2)) a.

(** [a[:, 2] = a[:, 2] + a[:, 5] * 0.5] *)
Definition lift_to_gravity_center (a : list Box) : list Box :=
  map (fun b => set_cz b (cz b + dz b * 0.5)) a.

(** [_format_boxes_3d]: predicted boxes to the dataset's own convention.
    The array shares its memory with the prediction's tensor, so the value
    returned is also what the tensor holds afterwards. *)
Definition _format_boxes_3d (boxes_3d : list Box) : outcome (list Box) :=
  rotated <- assign_rotated Tr_standard_to_lidar boxes_3d ;;
  Ok (yaw_sub_half_pi (lift_to_gravity_center rotated)).

(** Modelled from the spec: the box class [LiDARInstance3DBoxes] is defined
    outside this file.  The spec's "bottom-center -> geometric-center
    convention change" says that framework boxes store the centre of the
    bottom face; a box built with a relative [origin] has its centre moved by
    [dims * ((0.5, 0.5, 0) - origin)], on a copy of the array it is given. *)
Definition LiDARInstance3DBoxes (tensor : list Box) (origin : vec3) : list Box :=
  let '(ox, oy, oz) := origin in
  map (fun b => set_center b (cx b + dx b * (0.5 - ox),
                              cy b + dy b * (0.5 - oy),
                              cz b + dz b * (0 - oz))) tensor.

(** Modelled from the spec: the [gravity_center] property of the absent box
    class, the geometric centre of a box stored by its bottom centre. *)
Definition gravity_center (b : Box) : vec3 :=
  (cx b, cy b, cz b + dz b * 0.5).

(** [Box3DMode] *)
Inductive BoxMode : Type := LIDAR | CAM | DEPTH.

(** ** Frame records and the dataset object *)

(** [info['annos']] *)
Record Annos : Type := mkAnnos {
  annos_name : list string;
  annos_boxes_3d : list Box
}.

(** [info['calib'][camera]] *)
Record CamCalib : Type := mkCamCalib {
  cam_to_velo : mat4;
  cam_intrinsic : mat3
}.

(** One entry of [self.data_infos]; the key ['annos'] may be missing. *)
Record Info : Type := mkInfo {
  frame_id : string;
  sequence_id : string;
  lidar_path : string;
  calib : dict CamCalib;
  annos : option Annos
}.

Record OnceDataset : Type := mkOnceDataset {
  data_root : string;
  data_infos : list Info;
  CLASSES : list string;
  box_mode_3d : BoxMode;
  filter_empty_gt : bool;
  test_mode : bool
}.

(** The class attribute [CLASSES]. *)
Definition default_CLASSES : list string :=
  ["Car"; "Bus"; "Truck"; "Pedestrain"; "Cyclist"].

(** [self.camera_list] as set by [__init__]. *)
Definition camera_list : list string :=
  ["cam01"; "cam03"; "cam05"; "cam06"; "cam07"; "cam08"; "cam09"].

Definition _check_annos (info : Info) : bool :=
  match annos info with Some _ => true | None => false end.

(** [len(self)]: the base class counts the frame records. *)
Definition len_dataset (self : OnceDataset) : nat :=
  List.length (data_infos self).

(** The value returned by [get_ann_info]. *)
Record AnnInfo : Type := mkAnnInfo {
  gt_bboxes_3d : list Box;
  gt_labels_3d : list Z;
  gt_labels : list Z;
  gt_names : list string
}.

(** The value returned by [get_data_info]; [ann_info] is [None] when the
    key is absent and [Some None] when it holds Python's [None]. *)
Record InputDict : Type := mkInputDict {
  sample_idx : string;
  pts_filename : string;
  img_prefix : option string;
  img_filename : list string;
  lidar2img : list mat4;
  ann_info : option (option AnnInfo)
}.

(** What the pipeline hands back: the label tensor inside
    [example['gt_labels_3d']] and the rest of the sample. *)
Record Example : Type := mkExample {
  example_gt_labels_3d : list Z;
  example_inputs : InputDict
}.

(** [os.path.join] on POSIX. *)
Definition ends_with_sep (s : string) : bool :=
  match rev (list_ascii_of_string s) with
  | c :: _ => Ascii.eqb c "/"%char
  | [] => false
  end.

Definition path_join2 (path b : string) : string :=
  if String.prefix "/" b then b
  else if (String.eqb path "" || ends_with_sep path)%bool then String.append path b
  else String.append path (String.append "/" b).

Definition path_join (a : string) (p : list string) : string :=
  fold_left path_join2 p a.

(** The in-place writes of [get_ann_info] land in the array stored under
    [self.data_infos[index]['annos']['boxes_3d']]. *)
Definition with_boxes (info : Info) (boxes : list Box) : Info :=
  match annos info with
  | Some an =>
      mkInfo (frame_id info) (sequence_id info) (lidar_path info) (calib info)
             (Some (mkAnnos (annos_name an) boxes))
  | None => info
  end.

Definition store_boxes (self : OnceDataset) (index : Z) (boxes : list Box)
  : OnceDataset :=
  let pos := py_position (data_infos self) index in
  match nth_error (data_infos self) pos with
  | Some info =>
      mkOnceDataset (data_root self)
                    (list_set (data_infos self) pos (with_boxes info boxes))
                    (CLASSES self) (box_mode_3d self)
                    (filter_empty_gt self) (test_mode self)
  | None => self
  end.

(** [CLASSES.index(cat)] when [cat in CLASSES], [-1] otherwise. *)
Definition label_of (classes : list string) (cat : string) : Z :=
  match tuple_index classes cat with
  | Some i => Z.of_nat i
  | None => (-1)%Z
  end.

(** ** Detector output and formatted records *)

(** A plain result dict: keys ['boxes_3d'], ['scores_3d'], ['labels_3d']. *)
Record Detection : Type := mkDetection {
  boxes_3d : list Box;
  scores_3d : list R;
  labels_3d : list Z
}.

(** One element of [results]: a plain result dict, or a dict of plain result
    dicts keyed by modality name. *)
Inductive Result : Type :=
| Single (d : Detection)
| Multi (m : dict Detection).

(** The [results] argument. *)
Inductive PyResults : Type :=
| ResultList (l : list Result)
| NotAList.

(** One record of the formatted output. *)
Record PredDict : Type := mkPredDict {
  pred_name : list string;
  pred_score : list R;
  pred_boxes_3d : list Box;
  pred_frame_id : string
}.

(** Directories made and files dumped so far. *)
Record FileSystem : Type := mkFS {
  fs_dirs : list string;
  fs_files : dict (list PredDict)
}.

(** What [format_results] returns first: one path, or a dict of paths. *)
Inductive ResultFiles : Type :=
| Path (p : string)
| PathDict (d : dict string).

Definition plain_keys : list string := ["boxes_3d"; "scores_3d"; "labels_3d"].

(** [key in result] *)
Definition result_mem (r : Result) (key : string) : bool :=
  match r with
  | Single _ => existsb (String.eqb key) plain_keys
  | Multi m => dict_mem m key
  end.

(** [list(result)]: the keys of a result dict. *)
Definition result_keys (r : Result) : list string :=
  match r with
  | Single _ => plain_keys
  | Multi m => dict_keys m
  end.

(** Reading the three tensors of a plain result dict.  On a modality dict
    the key ['scores_3d'] is missing, or names an inner dict, which has no
    [numpy] method. *)
Definition as_detection (r : Result) : outcome Detection :=
  match r with
  | Single d => Ok d
  | Multi m =>
      if dict_mem m "scores_3d" then Raise AttributeError
      else Raise (KeyError "scores_3d")
  end.

(** [out[name]] for a modality name.  A plain result dict has no such key;
    under one of its own three keys it yields a tensor, not a result dict,
    and formatting that tensor fails with [IndexError] before anything is
    written. *)
Definition result_getitem (out : Result) (name : string) : outcome Detection :=
  match out with
  | Multi m =>
      match dict_get m name with
      | Some d => Ok d
      | None => Raise (KeyError name)
      end
  | Single _ =>
      if existsb (String.eqb name) plain_keys then Raise IndexError
      else Raise (KeyError name)
  end.

(** [np.array(self.CLASSES)[pred_labels - 1]] *)
Definition names_of_labels (classes : list string) (pred_labels : list Z)
  : outcome (list string) :=
  mapM (fun l => match py_getitem classes (l - 1)%Z with
                 | Some c => Ok c
                 | None => Raise IndexError
                 end) pred_labels.

(** The body of the loop of [_format_results] for the frame at [idx]. *)
Definition format_frame (self : OnceDataset) (idx : nat) (result : Result)
  : outcome PredDict :=
  match nth_error (data_infos self) idx with
  | None => Raise IndexError
  | Some info =>
      let sample_idx := frame_id info in
      d <- as_detection result ;;
      let pred_scores := scores_3d d in
      let pred_labels := labels_3d d in
      pred_boxes <- _format_boxes_3d (boxes_3d d) ;;
      let num_samples := List.length pred_scores in
      if Nat.eqb num_samples 0 then
        Ok (mkPredDict [] [] [] sample_idx)
      else
        names <- names_of_labels (CLASSES self) pred_labels ;;
        Ok (mkPredDict names pred_scores pred_boxes sample_idx)
  end.

(** [for idx, result in enumerate(results)], counting from [idx]. *)
Fixpoint format_frames (self : OnceDataset) (idx : nat) (results : list Result)
  : outcome (list PredDict) :=
  match results with
  | [] => Ok []
  | result :: rest =>
      pred_dict <- format_frame self idx result ;;
      annos_rest <- format_frames self (S idx) rest ;;
      Ok (pred_dict :: annos_rest)
  end.

(** [mmcv.mkdir_or_exist]; the parents [os.makedirs] creates on the way are
    not recorded. *)
Definition mkdir_or_exist (dir_name : string) (fs : FileSystem) : FileSystem :=
  if String.eqb dir_name "" then fs
  else if existsb (String.eqb dir_name) (fs_dirs fs) then fs
  else mkFS (fs_dirs fs ++ [dir_name]) (fs_files fs).

(** [mmcv.dump(obj, path)] *)
Definition dump (obj : list PredDict) (path : string) (fs : FileSystem)
  : FileSystem :=
  mkFS (fs_dirs fs) (dict_set (fs_files fs) path obj).

(** [_format_results]; the messages printed on the way are left out. *)
Definition _format_results (self : OnceDataset) (results : list Result)
  (jsonfile_prefix : option string) (fs : FileSystem)
  : outcome string * FileSystem :=
  match format_frames self 0 results with
  | Raise e => (Raise e, fs)
  | Ok annos =>
      match jsonfile_prefix with
      | Some prefix =>
          let fs1 := mkdir_or_exist prefix fs in
          let res_path := path_join prefix ["results_once.json"] in
          (Ok res_path, dump annos res_path fs1)
      | None => (Raise UnboundLocalError, fs)
      end
  end.

(** The [else] branch of [format_results]: one output file per key of the
    first result. *)
Fixpoint format_modalities (self : OnceDataset) (results : list Result)
  (jsonfile_prefix : string) (names : list string) (result_files : dict string)
  (fs : FileSystem) : outcome (dict string) * FileSystem :=
  match names with
  | [] => (Ok result_files, fs)
  | name :: rest =>
      match mapM (fun out => result_getitem out name) results with
      | Raise e => (Raise e, fs)
      | Ok results_ =>
          let tmp_file_ := path_join jsonfile_prefix [name] in
          match _format_results self (map Single results_) (Some tmp_file_) fs with
          | (Raise e, fs1) => (Raise e, fs1)
          | (Ok p, fs1) =>
              format_modalities self results jsonfile_prefix rest
                                (dict_set result_files name p) fs1
          end
      end
  end.

Definition length_message (n m : nat) : string :=
  String.append "The length of results is not equal to the dataset len: "
    (String.append (NilZero.string_of_uint (Nat.to_uint n))
       (String.append " != " (NilZero.string_of_uint (Nat.to_uint m)))).

(** [format_results].  [tmp_name] is the name the system gives the temporary
    directory when one is made; the second component of the value is
    [tmp_dir], by its name. *)
Definition format_results (self : OnceDataset) (results : PyResults)
  (jsonfile_prefix : option string) (tmp_name : string) (fs : FileSystem)
  : outcome (ResultFiles * option string) * FileSystem :=
  match results with
  | NotAList => (Raise (AssertionError "results must be a list"), fs)
  | ResultList l =>
      if negb (Nat.eqb (List.length l) (len_dataset self)) then
        (Raise (AssertionError
                  (length_message (List.length l) (len_dataset self))), fs)
      else
        let '(prefix, tmp_dir, fs0) :=
          match jsonfile_prefix with
          | None => (path_join tmp_name ["results"], Some tmp_name,
                     mkFS (fs_dirs fs ++ [tmp_name]) (fs_files fs))
          | Some p => (p, None, fs)
          end in
        match l with
        | [] => (Raise IndexError, fs0)
        | r0 :: _ =>
            if negb (result_mem r0 "pts_bbox" || result_mem r0 "img_bbox") then
              match _format_results self l (Some prefix) fs0 with
              | (Raise e, fs1) => (Raise e, fs1)
              | (Ok p, fs1) => (Ok (Path p, tmp_dir), fs1)
              end
            else
              match format_modalities self l prefix (result_keys r0) [] fs0 with
              | (Raise e, fs1) => (Raise e, fs1)
              | (Ok d, fs1) => (Ok (PathDict d, tmp_dir), fs1)
              end
        end
  end.

(** [float('{:.4f}'.format(ap))]: the nearest multiple of [1/10000], a tie
    going to the even one. *)
Definition round_half_even (y : R) : Z :=
  let f := Int_part y in
  let r := y - IZR f in
  if Rlt_dec r (1 / 2) then f
  else if Rlt_dec (1 / 2) r then (f + 1)%Z
  else if Z.even f then f else (f + 1)%Z.

Definition format_4f (ap : R) : R :=
  IZR (round_half_even (ap * 10000)) / 10000.

(** [tmp_dir.cleanup()]: the directory goes, with what lies under it. *)
Definition under (dir path : string) : bool :=
  (String.eqb dir path || String.prefix (String.append dir "/") path)%bool.

Definition cleanup (tmp_dir : option string) (fs : FileSystem) : FileSystem :=
  match tmp_dir with
  | None => fs
  | Some d =>
      mkFS (filter (fun p => negb (under d p)) (fs_dirs fs))
           (filter (fun kv => negb (under d (fst kv))) (fs_files fs))
  end.

(** [for ap_type, ap in ap_dict_.items():
       ap_dict[f'{name}/{ap_type}'] = float('{:.4f}'.format(ap))] *)
Definition republish (name : string) (ap_dict_ : dict R) (ap_dict : dict R)
  : dict R :=
  fold_left (fun acc kv =>
               dict_set acc (String.append name (String.append "/" (fst kv)))
                        (format_4f (snd kv)))
            ap_dict_ ap_dict.

(** ** The methods that call into the framework *)

Section Methods.

(** [Box3DMode.convert] to a mode other than the boxes' own. *)
Variable convert_other : BoxMode -> list Box -> list Box.

(** [self.pre_pipeline] of the base class and [self.pipeline]. *)
Variable pre_pipeline : OnceDataset -> InputDict -> InputDict.
Variable pipeline : InputDict -> option Example.

(** [once_eval(gt_annos, dt_annos, classes, eval_types=...)], which reads
    the result file it is pointed to. *)
Variable once_eval :
  FileSystem -> list Annos -> string -> list string -> option (list string) ->
  outcome (string * dict R).

(** [boxes.convert_to(dst)] on LiDAR boxes: nothing to do when the target
    mode is LiDAR. *)
Definition convert_to (dst : BoxMode) (boxes : list Box) : list Box :=
  match dst with
  | LIDAR => boxes
  | _ => convert_other dst boxes
  end.

(** The box arrays are arrays of floats, as [Box] has them.  (On an array
    of integers the second write, [+= np.pi / 2], raises after the first one
    has been stored.) *)
Definition get_ann_info (self : OnceDataset) (index : Z)
  : outcome (option AnnInfo) * OnceDataset :=
  match py_getitem (data_infos self) index with
  | None => (Raise IndexError, self)
  | Some info =>
      match annos info with
      | None => (Ok None, self)
      | Some an =>
          (* [gt_bboxes_3d] is the stored array itself, not a copy *)
          match assign_rotated Tr_lidar_to_standard (annos_boxes_3d an) with
          | Raise e => (Raise e, self)
          | Ok rotated =>
              let stored := yaw_add_half_pi rotated in
              let self' := store_boxes self index stored in
              let gt_bboxes_3d :=
                convert_to (box_mode_3d self)
                           (LiDARInstance3DBoxes stored (0.5, 0.5, 0.5)) in
              let gt_names := annos_name an in
              let gt_labels := map (label_of (CLASSES self)) gt_names in
              (Ok (Some (mkAnnInfo gt_bboxes_3d gt_labels gt_labels gt_names)),
               self')
          end
      end
  end.

(** The body of the camera loop of [get_data_info]. *)
Definition camera_entry (self : OnceDataset) (info : Info) (camera : string)
  : outcome (string * mat4) :=
  let img_filename :=
    path_join (data_root self)
              ["data"; sequence_id info; camera;
               String.append (frame_id info) ".jpg"] in
  match dict_get (calib info) camera with
  | None => Raise (KeyError camera)
  | Some c =>
      lidar2cam <- linalg_inv (cam_to_velo c) ;;
      let viewpad := viewpad_of (cam_intrinsic c) in
      Ok (img_filename, matmul4 viewpad (transpose4 lidar2cam))
  end.

Definition get_data_info (self : OnceDataset) (index : Z)
  : outcome InputDict * OnceDataset :=
  match py_getitem (data_infos self) index with
  | None => (Raise IndexError, self)
  | Some info =>
      match mapM (camera_entry self info) camera_list with
      | Raise e => (Raise e, self)
      | Ok entries =>
          let input_dict :=
            mkInputDict (frame_id info) (lidar_path info) None
                        (map fst entries) (map snd entries) in
          if negb (test_mode self) then
            match get_ann_info self index with
            | (Raise e, self') => (Raise e, self')
            | (Ok annos, self') => (Ok (input_dict (Some annos)), self')
            end
          else (Ok (input_dict None), self)
      end
  end.

(** [~(labels != -1).any()] *)
Definition no_valid_label (labels : list Z) : bool :=
  negb (existsb (fun l => negb (Z.eqb l (-1))) labels).

Definition prepare_train_data (self : OnceDataset) (index : Z)
  : outcome (option Example) * OnceDataset :=
  match get_data_info self index with
  | (Raise e, self') => (Raise e, self')
  | (Ok input_dict, self') =>
      match ann_info input_dict with
      | None => (Raise (KeyError "ann_info"), self')
      | Some None => (Ok None, self')
      | Some (Some _) =>
          let example := pipeline (pre_pipeline self' input_dict) in
          if (filter_empty_gt self' &&
              match example with
              | None => true
              | Some ex => no_valid_label (example_gt_labels_3d ex)
              end)%bool
          then (Ok None, self')
          else (Ok example, self')
      end
  end.

(** [gt_annos = [info['annos'] for info in self.data_infos]] *)
Definition collect_gt_annos (self : OnceDataset) : outcome (list Annos) :=
  mapM (fun info => match annos info with
                    | Some an => Ok an
                    | None => Raise (KeyError "annos")
                    end) (data_infos self).

(** The loop of [evaluate] over [result_files.items()]. *)
Fixpoint evaluate_modalities (self : OnceDataset) (fs : FileSystem)
  (gt_annos : list Annos) (items : dict string) (ap_dict : dict R)
  : outcome (dict R) :=
  match items with
  | [] => Ok ap_dict
  | (name, results_files_) :: rest =>
      let eval_types := ["Overall&Distance"] in
      '(ap_result_str, ap_dict_) <-
        once_eval fs gt_annos results_files_ (CLASSES self) (Some eval_types) ;;
      evaluate_modalities self fs gt_annos rest
                          (republish name ap_dict_ ap_dict)
  end.

(** [evaluate]; logging is left out.  When it raises, the state given is the
    one at the raise; a [TemporaryDirectory] made by [format_results] is
    removed later by its finalizer, once the exception is released. *)
Definition evaluate (self : OnceDataset) (results : PyResults)
  (jsonfile_prefix : option string) (tmp_name : string) (fs : FileSystem)
  : outcome (dict R) * FileSystem :=
  match format_results self results jsonfile_prefix tmp_name fs with
  | (Raise e, fs1) => (Raise e, fs1)
  | (Ok (result_files, tmp_dir), fs1) =>
      match collect_gt_annos self with
      | Raise e => (Raise e, fs1)
      | Ok gt_annos =>
          let ap :=
            match result_files with
            | PathDict d => evaluate_modalities self fs1 gt_annos d []
            | Path p =>
                '(ap_result_str, ap_dict) <-
                  once_eval fs1 gt_annos p (CLASSES self) None ;;
                Ok ap_dict
            end in
          match ap with
          | Raise e => (Raise e, fs1)
          | Ok ap_dict => (Ok ap_dict, cleanup tmp_dir fs1)
          end
      end
  end.

End Methods.

(** ** The second side of the coordinate claims, in the spec's words *)

(** Ground truth: rotate the centre by [[0,-1,0],[1,0,0],[0,0,1]], add
    [pi/2] to the yaw, keep the dimensions. *)
Definition spec_ground_truth_box (b : Box) : Box :=
  let '(x, y, z) := matvec3 ((0, -1, 0), (1, 0, 0), (0, 0, 1)) (center b) in
  mkBox x y z (dx b) (dy b) (dz b) (yaw b + PI / 2).

(** Prediction: rotate the centre by [[0,1,0],[-1,0,0],[0,0,1]], shift z up
    by half the height, subtract [pi/2] from the yaw. *)
Definition spec_prediction_box (b : Box) : Box :=
  let '(x, y, z) := matvec3 ((0, 1, 0), (-1, 0, 0), (0, 0, 1)) (center b) in
  mkBox x y (z + dz b / 2) (dx b) (dy b) (dz b) (yaw b - PI / 2).

(** The projection matrix as the spec words it: the padded intrinsic
    composed with the inverse of the camera-to-lidar matrix. *)
Definition spec_lidar2img (c : CamCalib) : outcome mat4 :=
  lidar2cam <- linalg_inv (cam_to_velo c) ;;
  Ok (matmul4 (viewpad_of (cam_intrinsic c)) lidar2cam).

(** The centre rotation and yaw offset of [get_ann_info] followed by
    [_format_boxes_3d]. *)
Definition ground_truth_then_prediction (a : list Box) : outcome (list Box) :=
  rotated <- assign_rotated Tr_lidar_to_standard a ;;
  _format_boxes_3d (yaw_add_half_pi rotated).

(** The same with the box construction of [get_ann_info] in between. *)
Definition boxed_ground_truth_then_prediction (a : list Box)
  : outcome (list Box) :=
  rotated <- assign_rotated Tr_lidar_to_standard a ;;
  _format_boxes_3d
    (LiDARInstance3DBoxes (yaw_add_half_pi rotated) (0.5, 0.5, 0.5)).

(** ** Sample data *)

(** A camera one unit along the lidar's x axis, with unit intrinsics. *)
Definition shift_x : mat4 :=
  ((1, 0, 0, 1), (0, 1, 0, 0), (0, 0, 1, 0), (0, 0, 0, 1)).

Definition demo_calib : CamCalib := mkCamCalib shift_x eye3.

Definition demo_cameras : dict CamCalib :=
  map (fun camera => (camera, demo_calib)) camera_list.

Definition demo_box : Box := mkBox 1 0 0 1 1 2 0.
Definition demo_box2 : Box := mkBox 0 3 1 4 2 2 1.

Definition demo_info : Info :=
  mkInfo "000076" "000027" "000027/lidar_roof/000076.bin" demo_cameras
         (Some (mkAnnos ["Car"; "Tram"] [demo_box; demo_box2])).

Definition unlabelled_info : Info :=
  mkInfo "000077" "000027" "000027/lidar_roof/000077.bin" demo_cameras None.

Definition demo_dataset : OnceDataset :=
  mkOnceDataset "data/once" [demo_info; unlabelled_info] default_CLASSES
                LIDAR true false.

Definition one_frame_dataset : OnceDataset :=
  mkOnceDataset "data/once" [demo_info] default_CLASSES LIDAR true false.

Definition demo_convert_other (_ : BoxMode) (boxes : list Box) : list Box :=
  boxes.

Definition demo_pre_pipeline (_ : OnceDataset) (d : InputDict) : InputDict := d.

Definition demo_pipeline (d : InputDict) : option Example :=
  match ann_info d with
  | Some (Some a) => Some (mkExample (gt_labels_3d a) d)
  | _ => None
  end.

Definition demo_once_eval (_ : FileSystem) (_ : list Annos) (_ : string)
  (_ : list string) (_ : option (list string)) : outcome (string * dict R) :=
  Ok ("AP", [("AP_Car/overall", 0.03125); ("AP_Bus/overall", 0.5)]).

Definition demo_detection : Detection :=
  mkDetection [mkBox 2 3 0 4 2 2 0] [0.9] [0%Z].

Definition demo_results : list Result :=
  [Single demo_detection].

Definition demo_modal_results : list Result :=
  [Multi [("pts_bbox", demo_detection)]].

Definition empty_fs : FileSystem := mkFS [] [].

Definition labelled_dataset : OnceDataset :=
  mkOnceDataset "data/once" [demo_info; demo_info] default_CLASSES
                LIDAR true false.

(** The frame has, for each of the seven cameras, a calibration whose
    camera-to-lidar matrix is invertible. *)
Definition calibrated (info : Info) : Prop :=
  forall camera, In camera camera_list ->
    exists c, dict_get (calib info) camera = Some c /\ det4 (cam_to_velo c) <> 0.

(** The image path [get_data_info] builds for a camera. *)
Definition image_path (self : OnceDataset) (info : Info) (camera : string)
  : string :=
  path_join (data_root self)
            ["data"; sequence_id info; camera;
             String.append (frame_id info) ".jpg"].

(** The inverse of [shift_x], and its transpose. *)
Definition shift_x_back : mat4 :=
  ((1, 0, 0, -1), (0, 1, 0, 0), (0, 0, 1, 0), (0, 0, 0, 1)).

Definition shift_x_back_T : mat4 :=
  ((1, 0, 0, 0), (0, 1, 0, 0), (0, 0, 1, 0), (-1, 0, 0, 1)).

(** ** Notions used to state what the methods keep *)

(** [self.filtered_data_infos] of [__init__]: the frame records that carry
    the key ['annos'].  The list holds the records themselves, so it follows
    the in-place writes made later. *)
Definition filtered_data_infos (self : OnceDataset) : list Info :=
  filter _check_annos (data_infos self).

(** The box array stored under [self.data_infos[index]['annos']]. *)
Definition stored_boxes (self : OnceDataset) (index : Z) : option (list Box) :=
  match py_getitem (data_infos self) index with
  | Some info => option_map annos_boxes_3d (annos info)
  | None => None
  end.

(** The dataset left by [n] calls of [get_ann_info] in a row on one index. *)
Fixpoint after_get_ann_info (convert_other : BoxMode -> list Box -> list Box)
  (n : nat) (self : OnceDataset) (index : Z) : OnceDataset :=
  match n with
  | O => self
  | S k =>
      after_get_ann_info convert_other k
                         (snd (get_ann_info convert_other self index)) index
  end.

(** Two frame records that differ at most in their box array. *)
Definition same_but_boxes (info info' : Info) : Prop :=
  frame_id info' = frame_id info /\
  sequence_id info' = sequence_id info /\
  lidar_path info' = lidar_path info /\
  calib info' = calib info /\
  option_map annos_name (annos info') = option_map annos_name (annos info).

(** [self'] is [self] up to the box array of the frame at [index]. *)
Definition touches_only_boxes_at (self : OnceDataset) (index : Z)
  (self' : OnceDataset) : Prop :=
  data_root self' = data_root self /\
  CLASSES self' = CLASSES self /\
  box_mode_3d self' = box_mode_3d self /\
  filter_empty_gt self' = filter_empty_gt self /\
  test_mode self' = test_mode self /\
  List.length (data_infos self') = List.length (data_infos self) /\
  (forall j, j <> py_position (data_infos self) index ->
             nth_error (data_infos self') j = nth_error (data_infos self) j) /\
  (forall info, py_getitem (data_infos self) index = Some info ->
     exists info', py_getitem (data_infos self') index = Some info' /\
                   same_but_boxes info info').

(** A predicted box sent to the dataset's convention and read back the way
    [get_ann_info] reads ground truth. *)
Definition prediction_then_boxed_ground_truth (a : list Box)
  : outcome (list Box) :=
  formatted <- _format_boxes_3d a ;;
  rotated <- assign_rotated Tr_lidar_to_standard formatted ;;
  Ok (LiDARInstance3DBoxes (yaw_add_half_pi rotated) (0.5, 0.5, 0.5)).

(** The last row and the last column of a 4x4 matrix. *)
Definition bottom_row (M : mat4) : vec4 := let '(_, _, _, r3) := M in r3.

Definition last_column (M : mat4) : vec4 := bottom_row (transpose4 M).


(** The key under which [evaluate] republishes a metric of a modality. *)
Definition metric_key (name ap_type : string) : string :=
  String.append name (String.append "/" ap_type).

(** More sample data. *)
Definition test_dataset : OnceDataset :=
  mkOnceDataset "data/once" [demo_info; unlabelled_info] default_CLASSES
                LIDAR true true.



Definition demo_pair_results : list Result :=
  [Single demo_detection; Single demo_detection].

Definition demo_uneven_results : list Result :=
  [Multi [("pts_bbox", demo_detection)]; Multi [("img_bbox", demo_detection)]].

Definition stocked_fs : FileSystem :=
  mkFS ["old"] [("old/keep.json", [])].

(** A camera one unit along the lidar's x axis with focal length 2 and
    principal point (1, 1); the matrix the code stores for it, and the
    lidar-to-image matrix in the spec's words. *)
Definition zoom_intrinsic : mat3 := ((2, 0, 1), (0, 2, 1), (0, 0, 1)).

Definition zoom_calib : CamCalib := mkCamCalib shift_x zoom_intrinsic.

Definition zoom_info : Info :=
  mkInfo "000079" "000027" "000027/lidar_roof/000079.bin"
         (map (fun camera => (camera, zoom_calib)) camera_list) None.

Definition zoom_dataset : OnceDataset :=
  mkOnceDataset "data/once" [zoom_info] default_CLASSES LIDAR true false.

Definition zoom_stored : mat4 :=
  ((2, 0, 1, 0), (0, 2, 1, 0), (0, 0, 1, 0), (-1, 0, 0, 1)).

Definition zoom_lidar2img : mat4 :=
  ((2, 0, 1, -2), (0, 2, 1, 0), (0, 0, 1, 0), (0, 0, 0, 1)).

(** * Properties *)

(** ** Tactics *)

(** Equality of boxes, vectors and matrices over the reals: split into
    components, then real arithmetic. *)
Ltac real_components :=
  repeat match goal with
         | |- mkBox _ _ _ _ _ _ _ = mkBox _ _ _ _ _ _ _ => f_equal
         | |- (_, _) = (_, _) => apply f_equal2
         | |- _ :: _ = _ :: _ => apply f_equal2
         | |- Ok _ = Ok _ => apply f_equal
         | |- Some _ = Some _ => apply f_equal
         end;
  try reflexivity; try lra; try (field; lra).

Ltac open_box b := destruct b as [? ? ? ? ? ? ?]; cbn [cx cy cz dx dy dz yaw] in *.

(** ** Matrices *)

Lemma matvec3_lidar_to_standard (x y z : R) :
  matvec3 Tr_lidar_to_standard (x, y, z) = (- y, x, z).
Proof. unfold matvec3, Tr_lidar_to_standard, dot3. real_components. Qed.

Lemma matvec3_standard_to_lidar (x y z : R) :
  matvec3 Tr_standard_to_lidar (x, y, z) = (y, - x, z).
Proof. unfold matvec3, Tr_standard_to_lidar, dot3. real_components. Qed.

Lemma matmul4_eye4_l (M : mat4) : matmul4 eye4 M = M.
Proof.
  destruct M as [[[r0 r1] r2] r3].
  destruct r0 as [[[? ?] ?] ?], r1 as [[[? ?] ?] ?],
           r2 as [[[? ?] ?] ?], r3 as [[[? ?] ?] ?].
  unfold matmul4, eye4, transpose4, dot4. real_components.
Qed.

(** [np.linalg.inv] returns a two-sided inverse. *)
Lemma linalg_inv_correct (M L : mat4) :
  linalg_inv M = Ok L -> matmul4 M L = eye4 /\ matmul4 L M = eye4.
Proof.
  unfold linalg_inv. destruct (Req_dec_T (det4 M) 0) as [|Hdet]; [discriminate|].
  intros H. injection H as <-.
  destruct M as [[[r0 r1] r2] r3].
  destruct r0 as [[[a00 a01] a02] a03], r1 as [[[a10 a11] a12] a13],
           r2 as [[[a20 a21] a22] a23], r3 as [[[a30 a31] a32] a33].
  unfold det4 in Hdet.
  split; unfold matmul4, scale4, adj4, det4, eye4, transpose4, dot4;
    repeat (apply f_equal2); field; exact Hdet.
Qed.

Lemma linalg_inv_total (M : mat4) :
  det4 M <> 0 -> exists L, linalg_inv M = Ok L.
Proof.
  intros H. unfold linalg_inv.
  destruct (Req_dec_T (det4 M) 0); [contradiction|eauto].
Qed.

Lemma linalg_inv_singular (M : mat4) :
  det4 M = 0 -> linalg_inv M = Raise LinAlgError.
Proof.
  intros H. unfold linalg_inv.
  destruct (Req_dec_T (det4 M) 0); [reflexivity|contradiction].
Qed.

(** ** Loops and containers *)

Lemma mapM_total {A B : Type} (f : A -> outcome B) (l : list A) :
  (forall x, In x l -> exists y, f x = Ok y) ->
  exists ys, mapM f l = Ok ys /\ Forall2 (fun x y => f x = Ok y) l ys.
Proof.
  induction l as [|x t IH]; intros H; cbn [mapM].
  - exists []. split; [reflexivity|constructor].
  - destruct (H x (or_introl eq_refl)) as [y Hy].
    destruct IH as [ys [Hys HF]]; [intros z Hz; apply H; now right|].
    exists (y :: ys). rewrite Hy, Hys. cbn. split; [reflexivity|].
    constructor; assumption.
Qed.

Lemma mapM_Ok_Forall2 {A B : Type} (f : A -> outcome B) (l : list A) ys :
  mapM f l = Ok ys -> Forall2 (fun x y => f x = Ok y) l ys.
Proof.
  revert ys. induction l as [|x t IH]; intros ys; cbn [mapM].
  - intros H. injection H as <-. constructor.
  - destruct (f x) as [y|] eqn:Hy; cbn; [|discriminate].
    destruct (mapM f t) as [ys'|] eqn:Hys; cbn; [|discriminate].
    intros H. injection H as <-. constructor; auto.
Qed.

Lemma Forall2_length_eq {A B : Type} (P : A -> B -> Prop) l l' :
  Forall2 P l l' -> List.length l = List.length l'.
Proof. induction 1; cbn; congruence. Qed.

Lemma py_getitem_position {A : Type} (l : list A) (i : Z) (x : A) :
  py_getitem l i = Some x -> nth_error l (py_position l i) = Some x.
Proof.
  unfold py_getitem, py_position.
  destruct (0 <=? i)%Z; [auto|].
  destruct (- Z.of_nat (List.length l) <=? i)%Z; [auto|discriminate].
Qed.

Lemma nth_error_list_set {A : Type} (l : list A) (n : nat) (x v : A) :
  nth_error l n = Some x -> nth_error (list_set l n v) n = Some v.
Proof.
  revert n. induction l as [|y t IH]; intros [|n]; cbn; try discriminate; auto.
Qed.

Lemma length_list_set {A : Type} (l : list A) (n : nat) (v : A) :
  List.length (list_set l n v) = List.length l.
Proof.
  revert n. induction l as [|y t IH]; intros [|n]; cbn; auto.
Qed.

Lemma py_getitem_list_set {A : Type} (l : list A) (i : Z) (x v : A) :
  py_getitem l i = Some x ->
  py_getitem (list_set l (py_position l i) v) i = Some v.
Proof.
  intros H. pose proof (py_getitem_position l i x H) as Hn.
  unfold py_getitem, py_position in *.
  rewrite length_list_set.
  destruct (0 <=? i)%Z.
  - eapply nth_error_list_set; eauto.
  - destruct (- Z.of_nat (List.length l) <=? i)%Z; [|discriminate].
    eapply nth_error_list_set; eauto.
Qed.

Lemma tuple_index_Some (l : list string) (x : string) (i : nat) :
  tuple_index l x = Some i ->
  nth_error l i = Some x /\
  forall j, (j < i)%nat -> nth_error l j <> Some x.
Proof.
  revert i. induction l as [|y t IH]; intros i; cbn; [discriminate|].
  destruct (String.eqb y x) eqn:E.
  - intros H. injection H as <-. apply String.eqb_eq in E. subst y.
    split; [reflexivity|]. intros j Hj. lia.
  - destruct (tuple_index t x) as [k|]; cbn; [|discriminate].
    intros H. injection H as <-. destruct (IH k eq_refl) as [Hk Hfirst].
    split; [exact Hk|]. intros [|j] Hj; cbn.
    + intros Hc. injection Hc as ->. rewrite String.eqb_refl in E. discriminate.
    + apply Hfirst. lia.
Qed.

Lemma tuple_index_None (l : list string) (x : string) :
  tuple_index l x = None <-> ~ In x l.
Proof.
  induction l as [|y t IH]; cbn.
  - split; auto.
  - destruct (String.eqb y x) eqn:E.
    + apply String.eqb_eq in E. split; [discriminate|]. intros H. elim H. auto.
    + apply String.eqb_neq in E. destruct (tuple_index t x); cbn.
      * split; [discriminate|]. intros H. exfalso. apply H. right.
        apply Decidable.not_not; [|intros Hn; apply IH in Hn; discriminate].
        unfold Decidable.decidable.
        destruct (in_dec string_dec x t); auto.
      * split; [|reflexivity]. intros _ [H|H]; [contradiction|].
        now apply IH.
Qed.

(** ** Coordinate conventions *)

Lemma spec_prediction_box_explicit (b : Box) :
  spec_prediction_box b =
  mkBox (cy b) (- cx b) (cz b + dz b / 2) (dx b) (dy b) (dz b) (yaw b - PI / 2).
Proof.
  open_box b. unfold spec_prediction_box, matvec3, dot3, center; cbn.
  real_components.
Qed.

Lemma spec_ground_truth_box_explicit (b : Box) :
  spec_ground_truth_box b =
  mkBox (- cy b) (cx b) (cz b) (dx b) (dy b) (dz b) (yaw b + PI / 2).
Proof.
  open_box b. unfold spec_ground_truth_box, matvec3, dot3, center; cbn.
  real_components.
Qed.

Lemma assign_rotated_cons (Tr : mat3) (b : Box) (rest : list Box) :
  assign_rotated Tr (b :: rest) =
  Ok (map (fun b => set_center b (matvec3 Tr (center b))) (b :: rest)).
Proof. reflexivity. Qed.

Lemma ground_truth_array (a : list Box) :
  yaw_add_half_pi
    (map (fun b => set_center b (matvec3 Tr_lidar_to_standard (center b))) a)
  = map spec_ground_truth_box a.
Proof.
  unfold yaw_add_half_pi. rewrite map_map. apply map_ext. intros b.
  rewrite spec_ground_truth_box_explicit. destruct b as [x y z ? ? ? ?].
  unfold center. cbn [cx cy cz]. rewrite matvec3_lidar_to_standard.
  unfold set_yaw. cbn. real_components.
Qed.

Lemma prediction_array (a : list Box) :
  yaw_sub_half_pi
    (lift_to_gravity_center
       (map (fun b => set_center b (matvec3 Tr_standard_to_lidar (center b))) a))
  = map spec_prediction_box a.
Proof.
  unfold yaw_sub_half_pi, lift_to_gravity_center. rewrite !map_map.
  apply map_ext. intros b.
  rewrite spec_prediction_box_explicit. destruct b as [x y z ? ? ? ?].
  unfold center. cbn [cx cy cz]. rewrite matvec3_standard_to_lidar.
  unfold set_yaw, set_cz. cbn. real_components.
Qed.

Lemma map_id_ext {A : Type} (f : A -> A) (l : list A) :
  (forall x, f x = x) -> map f l = l.
Proof. intros H. induction l; cbn; congruence. Qed.

(** C3: [_format_boxes_3d] sends every row of a box array to the row whose
    centre is the product of [[0,1,0],[-1,0,0],[0,0,1]] with the old centre,
    with half of the height [dz] added to the new z, and whose yaw is the old
    one minus [pi/2]; in coordinates, [(y, -x, z + dz/2)]. *)
Theorem format_boxes_3d_converts (b : Box) (rest : list Box) :
  _format_boxes_3d (b :: rest) = Ok (map spec_prediction_box (b :: rest)) /\
  forall p,
    center (spec_prediction_box p) = (cy p, - cx p, cz p + dz p / 2) /\
    dims (spec_prediction_box p) = dims p /\
    yaw (spec_prediction_box p) = yaw p - PI / 2.
Proof.
  split.
  - unfold _format_boxes_3d. rewrite assign_rotated_cons. cbn [bind].
    now rewrite prediction_array.
  - intros p. rewrite spec_prediction_box_explicit. now cbn.
Qed.

(** C4: the matrix used on predictions is the inverse of the matrix used on
    ground truth (both products are the identity, so either centre map
    undoes the other), and subtracting [pi/2] undoes adding it. *)
Theorem center_and_yaw_maps_inverse :
  matmul3 Tr_standard_to_lidar Tr_lidar_to_standard = eye3 /\
  matmul3 Tr_lidar_to_standard Tr_standard_to_lidar = eye3 /\
  (forall v, matvec3 Tr_standard_to_lidar (matvec3 Tr_lidar_to_standard v) = v) /\
  (forall v, matvec3 Tr_lidar_to_standard (matvec3 Tr_standard_to_lidar v) = v) /\
  (forall a, map yaw (yaw_sub_half_pi (yaw_add_half_pi a)) = map yaw a) /\
  (forall a, map yaw (yaw_add_half_pi (yaw_sub_half_pi a)) = map yaw a).
Proof.
  repeat split.
  - unfold matmul3, Tr_standard_to_lidar, Tr_lidar_to_standard, eye3,
      transpose3, dot3. real_components.
  - unfold matmul3, Tr_standard_to_lidar, Tr_lidar_to_standard, eye3,
      transpose3, dot3. real_components.
  - intros [[x y] z]. rewrite matvec3_lidar_to_standard,
      matvec3_standard_to_lidar. real_components.
  - intros [[x y] z]. rewrite matvec3_standard_to_lidar,
      matvec3_lidar_to_standard. real_components.
  - intros a. unfold yaw_sub_half_pi, yaw_add_half_pi. rewrite !map_map.
    apply map_ext. intros b. cbn. lra.
  - intros a. unfold yaw_sub_half_pi, yaw_add_half_pi. rewrite !map_map.
    apply map_ext. intros b. cbn. lra.
Qed.

Lemma format_boxes_3d_cons (b : Box) (rest : list Box) :
  _format_boxes_3d (b :: rest) = Ok (map spec_prediction_box (b :: rest)).
Proof.
  unfold _format_boxes_3d. rewrite assign_rotated_cons. cbn [bind].
  now rewrite prediction_array.
Qed.

(** With no box the slice assignment fails. *)
Lemma format_boxes_3d_nil : _format_boxes_3d [] = Raise ValueError.
Proof. reflexivity. Qed.

Lemma prediction_of_ground_truth (p : Box) :
  spec_prediction_box (spec_ground_truth_box p) = set_cz p (cz p + dz p / 2).
Proof.
  rewrite spec_prediction_box_explicit, spec_ground_truth_box_explicit.
  open_box p. unfold set_cz. cbn. real_components.
Qed.

Lemma box_of_ground_truth (a : list Box) :
  LiDARInstance3DBoxes (map spec_ground_truth_box a) (0.5, 0.5, 0.5)
  = map (fun p => set_cz (spec_ground_truth_box p) (cz p - dz p / 2)) a.
Proof.
  unfold LiDARInstance3DBoxes. rewrite map_map. apply map_ext. intros p.
  rewrite spec_ground_truth_box_explicit. open_box p.
  unfold set_center, set_cz. cbn. real_components.
Qed.

(** C1, refuted as stated: after the centre rotation and yaw offset of
    [get_ann_info], [_format_boxes_3d] does not give back the centre of the
    box [(1, 0, 0, 1, 1, 2, 0)]: its z comes back as [1], not [0]. *)
Lemma roundtrip_moves_center_z :
  ~ (forall b : Box, exists b',
        ground_truth_then_prediction [b] = Ok [b'] /\
        center b' = center b /\ yaw b' = yaw b).
Proof.
  intros H. destruct (H demo_box) as [b' [E [Hc _]]].
  unfold ground_truth_then_prediction in E.
  rewrite assign_rotated_cons in E. cbn [bind] in E.
  rewrite ground_truth_array in E. cbn [map] in E.
  rewrite format_boxes_3d_cons in E. cbn [map] in E.
  rewrite prediction_of_ground_truth in E.
  injection E as E. subst b'.
  unfold center, set_cz, demo_box in Hc. cbn in Hc.
  injection Hc as Hz. lra.
Qed.

(** C1, amended: [_format_boxes_3d] after the centre rotation and yaw offset
    of [get_ann_info] gives back x, y, the dimensions and the yaw of every
    box, and its z raised by half the height; with the box construction of
    [get_ann_info] (origin [(0.5, 0.5, 0.5)]) in between, it gives back the
    whole box. *)
Theorem roundtrip_restores_box (b : Box) (rest : list Box) :
  ground_truth_then_prediction (b :: rest)
  = Ok (map (fun p => set_cz p (cz p + dz p / 2)) (b :: rest)) /\
  boxed_ground_truth_then_prediction (b :: rest) = Ok (b :: rest).
Proof.
  split.
  - unfold ground_truth_then_prediction.
    rewrite assign_rotated_cons. cbn [bind].
    rewrite ground_truth_array. cbn [map].
    rewrite format_boxes_3d_cons. f_equal.
    change (map spec_prediction_box (map spec_ground_truth_box (b :: rest))
            = map (fun p => set_cz p (cz p + dz p / 2)) (b :: rest)).
    rewrite map_map. apply map_ext. apply prediction_of_ground_truth.
  - unfold boxed_ground_truth_then_prediction.
    rewrite assign_rotated_cons. cbn [bind].
    rewrite ground_truth_array, box_of_ground_truth. cbn [map].
    rewrite format_boxes_3d_cons. f_equal.
    change (map spec_prediction_box
              (map (fun p => set_cz (spec_ground_truth_box p) (cz p - dz p / 2))
                   (b :: rest)) = b :: rest).
    rewrite map_map. apply map_id_ext. intros p.
    rewrite spec_prediction_box_explicit, spec_ground_truth_box_explicit.
    open_box p. unfold set_cz. cbn. real_components.
Qed.

(** ** Annotation access *)

Lemma label_of_member (classes : list string) (cat : string) :
  In cat classes ->
  exists i, label_of classes cat = Z.of_nat i /\
            nth_error classes i = Some cat /\
            forall j, (j < i)%nat -> nth_error classes j <> Some cat.
Proof.
  intros Hin. unfold label_of.
  destruct (tuple_index classes cat) as [i|] eqn:E.
  - exists i. split; [reflexivity|]. now apply tuple_index_Some.
  - apply tuple_index_None in E. contradiction.
Qed.

Lemma label_of_other (classes : list string) (cat : string) :
  ~ In cat classes -> label_of classes cat = (-1)%Z.
Proof.
  intros Hn. unfold label_of.
  apply tuple_index_None in Hn. now rewrite Hn.
Qed.

Lemma store_boxes_lookup (self : OnceDataset) (index : Z) (info : Info)
  (an : Annos) (boxes : list Box) :
  py_getitem (data_infos self) index = Some info ->
  annos info = Some an ->
  py_getitem (data_infos (store_boxes self index boxes)) index
  = Some (with_boxes info boxes) /\
  annos (with_boxes info boxes) = Some (mkAnnos (annos_name an) boxes).
Proof.
  intros Hget Han. unfold store_boxes.
  rewrite (py_getitem_position _ _ _ Hget). cbn [data_infos].
  split.
  - now apply py_getitem_list_set with (x := info).
  - unfold with_boxes. now rewrite Han.
Qed.

Section AnnotationAccess.

Variable convert_other : BoxMode -> list Box -> list Box.

(** What [get_ann_info] returns, and leaves behind, on an annotated frame
    with at least one box. *)
Lemma get_ann_info_annotated (self : OnceDataset) (index : Z) (info : Info)
  (an : Annos) (b : Box) (rest : list Box) :
  py_getitem (data_infos self) index = Some info ->
  annos info = Some an ->
  annos_boxes_3d an = b :: rest ->
  get_ann_info convert_other self index =
  (Ok (Some (mkAnnInfo
               (convert_to convert_other (box_mode_3d self)
                  (LiDARInstance3DBoxes
                     (map spec_ground_truth_box (b :: rest)) (0.5, 0.5, 0.5)))
               (map (label_of (CLASSES self)) (annos_name an))
               (map (label_of (CLASSES self)) (annos_name an))
               (annos_name an))),
   store_boxes self index (map spec_ground_truth_box (b :: rest))).
Proof.
  intros Hget Han Hboxes. unfold get_ann_info.
  rewrite Hget, Han, Hboxes, assign_rotated_cons.
  now rewrite ground_truth_array.
Qed.

Lemma get_ann_info_unlabelled (self : OnceDataset) (index : Z) (info : Info) :
  py_getitem (data_infos self) index = Some info ->
  annos info = None ->
  get_ann_info convert_other self index = (Ok None, self).
Proof.
  intros Hget Han. unfold get_ann_info. now rewrite Hget, Han.
Qed.

(** An annotated frame without boxes stops at the slice assignment. *)
Lemma get_ann_info_no_box (self : OnceDataset) (index : Z) (info : Info)
  (an : Annos) :
  py_getitem (data_infos self) index = Some info ->
  annos info = Some an ->
  annos_boxes_3d an = [] ->
  get_ann_info convert_other self index = (Raise ValueError, self).
Proof.
  intros Hget Han Hboxes. unfold get_ann_info.
  now rewrite Hget, Han, Hboxes.
Qed.

(** Every call rewrites the stored array: the record is not what it was,
    since no yaw equals itself plus [pi/2]. *)
Lemma get_ann_info_rewrites_record (self : OnceDataset) (index : Z)
  (info : Info) (an : Annos) (b : Box) (rest : list Box) :
  py_getitem (data_infos self) index = Some info ->
  annos info = Some an ->
  annos_boxes_3d an = b :: rest ->
  exists res self' info',
    get_ann_info convert_other self index = (Ok (Some res), self') /\
    py_getitem (data_infos self') index = Some info' /\
    annos info' = Some (mkAnnos (annos_name an)
                                (map spec_ground_truth_box (b :: rest))) /\
    info' <> info.
Proof.
  intros Hget Han Hboxes.
  destruct (store_boxes_lookup self index info an
              (map spec_ground_truth_box (b :: rest)) Hget Han) as [Hs Ha].
  eexists _, _, _. split; [eapply get_ann_info_annotated; eassumption|].
  split; [exact Hs|]. split; [exact Ha|].
  intros E. rewrite E, Han in Ha. injection Ha as Ha.
  apply (f_equal annos_boxes_3d) in Ha. cbn [annos_boxes_3d] in Ha.
  rewrite Hboxes in Ha. cbn [map] in Ha. injection Ha as Hb _.
  apply (f_equal yaw) in Hb. rewrite spec_ground_truth_box_explicit in Hb.
  cbn in Hb. pose proof PI_RGT_0. lra.
Qed.

(** C2: on an annotated frame [get_ann_info] returns, and the array it
    hands to the box class, which is the stored array rewritten in place,
    holds for every ground-truth box the box whose centre is
    [[0,-1,0],[1,0,0],[0,0,1]] times the old centre, whose yaw is the old
    one plus [pi/2] and whose dimensions are the old ones.  In LiDAR mode
    the boxes returned have these centres as their geometric centres,
    these yaws and these dimensions. *)
Theorem get_ann_info_converts_boxes (self : OnceDataset) (index : Z)
  (info : Info) (an : Annos) (b : Box) (rest : list Box) :
  py_getitem (data_infos self) index = Some info ->
  annos info = Some an ->
  annos_boxes_3d an = b :: rest ->
  exists res self',
    get_ann_info convert_other self index = (Ok (Some res), self') /\
    gt_bboxes_3d res =
      convert_to convert_other (box_mode_3d self)
        (LiDARInstance3DBoxes (map spec_ground_truth_box (b :: rest))
                              (0.5, 0.5, 0.5)) /\
    (forall p, center (spec_ground_truth_box p) = (- cy p, cx p, cz p) /\
               dims (spec_ground_truth_box p) = dims p /\
               yaw (spec_ground_truth_box p) = yaw p + PI / 2) /\
    (box_mode_3d self = LIDAR ->
     map gravity_center (gt_bboxes_3d res)
     = map (fun p => matvec3 ((0, -1, 0), (1, 0, 0), (0, 0, 1)) (center p))
           (b :: rest) /\
     map dims (gt_bboxes_3d res) = map dims (b :: rest) /\
     map yaw (gt_bboxes_3d res) = map (fun p => yaw p + PI / 2) (b :: rest)).
Proof.
  intros Hget Han Hboxes.
  eexists _, _. split; [eapply get_ann_info_annotated; eassumption|].
  cbn [gt_bboxes_3d]. split; [reflexivity|]. split.
  - intros p. rewrite spec_ground_truth_box_explicit. now cbn.
  - intros Hmode. rewrite Hmode. cbn [convert_to].
    rewrite box_of_ground_truth. rewrite !map_map.
    repeat split; apply map_ext; intros p;
      rewrite spec_ground_truth_box_explicit; open_box p;
      unfold gravity_center, set_cz, dims, center, matvec3, dot3; cbn;
      real_components.
Qed.

End AnnotationAccess.

(** ** Sample assembly *)

Lemma store_boxes_flags (self : OnceDataset) (index : Z) (boxes : list Box) :
  test_mode (store_boxes self index boxes) = test_mode self /\
  filter_empty_gt (store_boxes self index boxes) = filter_empty_gt self /\
  CLASSES (store_boxes self index boxes) = CLASSES self /\
  box_mode_3d (store_boxes self index boxes) = box_mode_3d self /\
  data_root (store_boxes self index boxes) = data_root self.
Proof.
  unfold store_boxes.
  destruct (nth_error (data_infos self) (py_position (data_infos self) index));
    cbn; auto.
Qed.

Lemma linalg_inv_shift_x : linalg_inv shift_x = Ok shift_x_back.
Proof.
  unfold linalg_inv.
  destruct (Req_dec_T (det4 shift_x) 0) as [E|_].
  - exfalso. unfold det4, shift_x in E. lra.
  - unfold scale4, adj4, det4, shift_x, shift_x_back. real_components.
Qed.

Lemma det4_shift_x : det4 shift_x <> 0.
Proof. unfold det4, shift_x. lra. Qed.

Lemma demo_cameras_calibrated (info : Info) :
  calib info = demo_cameras -> calibrated info.
Proof.
  intros E camera Hin. rewrite E. exists demo_calib.
  split; [|exact det4_shift_x].
  cbn in Hin.
  repeat (destruct Hin as [<-|Hin]; [reflexivity|]). contradiction.
Qed.

Section SampleAssembly.

Variable convert_other : BoxMode -> list Box -> list Box.

Lemma camera_entry_calibrated (self : OnceDataset) (info : Info)
  (camera : string) (c : CamCalib) :
  dict_get (calib info) camera = Some c ->
  det4 (cam_to_velo c) <> 0 ->
  exists L,
    linalg_inv (cam_to_velo c) = Ok L /\
    camera_entry self info camera
    = Ok (image_path self info camera,
          matmul4 (viewpad_of (cam_intrinsic c)) (transpose4 L)).
Proof.
  intros Hc Hdet. destruct (linalg_inv_total _ Hdet) as [L HL].
  exists L. split; [exact HL|].
  unfold camera_entry. now rewrite Hc, HL.
Qed.

(** The camera loop completes on a calibrated frame. *)
Lemma camera_loop_total (self : OnceDataset) (info : Info) :
  calibrated info ->
  exists entries,
    mapM (camera_entry self info) camera_list = Ok entries /\
    Forall2 (fun camera e => camera_entry self info camera = Ok e)
            camera_list entries.
Proof.
  intros Hcal. apply mapM_total. intros camera Hin.
  destruct (Hcal camera Hin) as [c [Hc Hdet]].
  destruct (camera_entry_calibrated self info camera c Hc Hdet) as [L [_ H]].
  eauto.
Qed.

Lemma get_data_info_unfold (self : OnceDataset) (index : Z) (info : Info)
  (entries : list (string * mat4)) :
  py_getitem (data_infos self) index = Some info ->
  mapM (camera_entry self info) camera_list = Ok entries ->
  get_data_info convert_other self index =
  let input_dict :=
    mkInputDict (frame_id info) (lidar_path info) None
                (map fst entries) (map snd entries) in
  if test_mode self then (Ok (input_dict None), self)
  else match get_ann_info convert_other self index with
       | (Raise e, self') => (Raise e, self')
       | (Ok annos, self') => (Ok (input_dict (Some annos)), self')
       end.
Proof.
  intros Hget Hloop. unfold get_data_info. rewrite Hget, Hloop.
  now destruct (test_mode self).
Qed.

(** What the camera loop collects. *)
Lemma camera_entries_contents (self : OnceDataset) (info : Info)
  (entries : list (string * mat4)) :
  Forall2 (fun camera e => camera_entry self info camera = Ok e)
          camera_list entries ->
  map fst entries = map (image_path self info) camera_list /\
  Forall2 (fun camera M =>
             exists c L,
               dict_get (calib info) camera = Some c /\
               matmul4 (cam_to_velo c) L = eye4 /\
               matmul4 L (cam_to_velo c) = eye4 /\
               M = matmul4 (viewpad_of (cam_intrinsic c)) (transpose4 L))
          camera_list (map snd entries).
Proof.
  generalize camera_list. intros cams HF.
  induction HF as [|camera e cams' entries' He HF IH]; cbn [map].
  - split; [reflexivity|constructor].
  - destruct IH as [IH1 IH2]. unfold camera_entry in He.
    fold (image_path self info camera) in He.
    destruct (dict_get (calib info) camera) as [c|] eqn:Hc; [|discriminate].
    destruct (linalg_inv (cam_to_velo c)) as [L|] eqn:HL; [|discriminate].
    cbn in He. injection He as <-. cbn [fst snd].
    destruct (linalg_inv_correct _ _ HL) as [H1 H2].
    split; [now rewrite IH1|].
    constructor; [|exact IH2]. exists c, L. auto.
Qed.

(** What [get_data_info] returns on a valid index whose frame is calibrated
    for the seven cameras (and, outside test mode, has no annotations or at
    least one box): the frame's point-cloud path, one image path and one
    matrix per camera of the list, each matrix being the padded intrinsic
    times the transpose of the inverse of the camera-to-lidar matrix, and
    the key [ann_info] exactly when the dataset is not in test mode. *)
Theorem get_data_info_contents (self : OnceDataset) (index : Z) (info : Info) :
  py_getitem (data_infos self) index = Some info ->
  calibrated info ->
  (forall an, annos info = Some an ->
              annos_boxes_3d an <> [] \/ test_mode self = true) ->
  exists d self',
    get_data_info convert_other self index = (Ok d, self') /\
    pts_filename d = lidar_path info /\
    img_filename d = map (image_path self info) camera_list /\
    List.length (img_filename d) = 7%nat /\
    List.length (lidar2img d) = 7%nat /\
    Forall2 (fun camera M =>
               exists c L,
                 dict_get (calib info) camera = Some c /\
                 matmul4 (cam_to_velo c) L = eye4 /\
                 matmul4 L (cam_to_velo c) = eye4 /\
                 M = matmul4 (viewpad_of (cam_intrinsic c)) (transpose4 L))
            camera_list (lidar2img d) /\
    (ann_info d <> None <-> test_mode self = false).
Proof.
  intros Hget Hcal Hboxes.
  destruct (camera_loop_total self info Hcal) as [entries [Hloop HF]].
  destruct (camera_entries_contents self info entries HF) as [Hnames Hmats].
  pose proof (Forall2_length_eq _ _ _ Hmats) as Hlen.
  rewrite (get_data_info_unfold self index info entries Hget Hloop).
  cbv zeta.
  assert (Hout : forall a (s : OnceDataset),
    exists d (self' : OnceDataset),
      (Ok (mkInputDict (frame_id info) (lidar_path info) None
             (map fst entries) (map snd entries) a), s) = (Ok d, self') /\
      pts_filename d = lidar_path info /\
      img_filename d = map (image_path self info) camera_list /\
      List.length (img_filename d) = 7%nat /\
      List.length (lidar2img d) = 7%nat /\
      Forall2 (fun camera M =>
               exists c L,
                 dict_get (calib info) camera = Some c /\
                 matmul4 (cam_to_velo c) L = eye4 /\
                 matmul4 L (cam_to_velo c) = eye4 /\
                 M = matmul4 (viewpad_of (cam_intrinsic c)) (transpose4 L))
            camera_list (lidar2img d) /\
      ann_info d = a).
  { intros a s. eexists _, _. split; [reflexivity|]. cbn.
    rewrite Hnames, length_map. rewrite <- Hlen. repeat split; auto. }
  destruct (test_mode self) eqn:Htest.
  - destruct (Hout None self) as (d & s & E & H1 & H2 & H3 & H4 & H5 & H6).
    exists d, s. split; [exact E|]. repeat (split; [assumption|]).
    rewrite H6. split; [intros H; now elim H|discriminate].
  - assert (Hann : exists a s,
              get_ann_info convert_other self index = (Ok a, s)).
    { destruct (annos info) as [an|] eqn:Han.
      - destruct (annos_boxes_3d an) as [|b rest] eqn:Hb.
        + destruct (Hboxes an eq_refl) as [H|H]; [now elim H|discriminate].
        + rewrite (get_ann_info_annotated convert_other self index info an
                     b rest Hget Han Hb). eauto.
      - rewrite (get_ann_info_unlabelled convert_other self index info
                   Hget Han). eauto. }
    destruct Hann as (a & s0 & Ha). rewrite Ha.
    destruct (Hout (Some a) s0) as (d & s & E & H1 & H2 & H3 & H4 & H5 & H6).
    exists d, s. split; [exact E|]. repeat (split; [assumption|]).
    rewrite H6. split; [reflexivity|discriminate].
Qed.

End SampleAssembly.

(** For the second frame of the sample dataset, whose cameras sit one unit
    along x with unit intrinsics, every matrix returned carries the
    translation in its last row, while the padded intrinsic times the
    inverse of the camera-to-lidar matrix carries it in its last column. *)
Lemma lidar2img_is_not_intrinsic_times_inverse :
  exists d self',
    get_data_info demo_convert_other demo_dataset 1 = (Ok d, self') /\
    lidar2img d = repeat shift_x_back_T 7 /\
    spec_lidar2img demo_calib = Ok shift_x_back /\
    ~ Forall2 (fun camera M =>
                 exists c, dict_get (calib unlabelled_info) camera = Some c /\
                           spec_lidar2img c = Ok M)
              camera_list (lidar2img d).
Proof.
  assert (Hspec : spec_lidar2img demo_calib = Ok shift_x_back).
  { unfold spec_lidar2img. cbn [cam_to_velo cam_intrinsic demo_calib].
    rewrite linalg_inv_shift_x. cbn [bind].
    unfold matmul4, viewpad_of, eye3, shift_x_back, transpose4, dot4.
    real_components. }
  assert (Hentry : forall camera, In camera camera_list ->
            camera_entry demo_dataset unlabelled_info camera
            = Ok (image_path demo_dataset unlabelled_info camera,
                  shift_x_back_T)).
  { intros camera Hin. unfold camera_entry.
    fold (image_path demo_dataset unlabelled_info camera).
    replace (dict_get (calib unlabelled_info) camera) with (Some demo_calib).
    - cbn [cam_to_velo cam_intrinsic demo_calib].
      rewrite linalg_inv_shift_x. cbn [bind].
      unfold matmul4, viewpad_of, eye3, shift_x_back, shift_x_back_T,
        transpose4, dot4.
      real_components.
    - cbn in Hin.
      repeat (destruct Hin as [<-|Hin]; [reflexivity|]). contradiction. }
  assert (Hloop : mapM (camera_entry demo_dataset unlabelled_info) camera_list
                  = Ok (map (fun camera =>
                               (image_path demo_dataset unlabelled_info camera,
                                shift_x_back_T)) camera_list)).
  { revert Hentry. generalize camera_list. intros cams.
    induction cams as [|camera t IH]; intros H; cbn [mapM map].
    - reflexivity.
    - rewrite (H camera (or_introl eq_refl)), IH; [reflexivity|].
      intros c Hc. apply H. now right. }
  eexists _, _. split.
  - rewrite (get_data_info_unfold demo_convert_other demo_dataset 1
               unlabelled_info _ eq_refl Hloop).
    cbv zeta. cbn [test_mode demo_dataset].
    rewrite (get_ann_info_unlabelled demo_convert_other demo_dataset 1
               unlabelled_info eq_refl eq_refl).
    reflexivity.
  - cbn [lidar2img]. rewrite map_map. cbn [snd].
    split; [reflexivity|]. split; [exact Hspec|].
    cbn [map camera_list]. intros HF. inversion HF as [|? ? ? ? Hhead _]; subst.
    destruct Hhead as [c [Hc Hm]].
    assert (c = demo_calib) by (cbn in Hc; congruence). subst c.
    rewrite Hspec in Hm. unfold shift_x_back, shift_x_back_T in Hm.
    injection Hm. intros. lra.
Qed.

(** C7, evaluated on a frame whose seven cameras sit one unit along x with
    focal length 2 and principal point (1, 1): [get_data_info] returns, with
    the point-cloud path, seven image paths and the key [ann_info], but
    every matrix it stores as [lidar2img] is the padded intrinsic times the
    TRANSPOSE of the inverse of the camera-to-lidar matrix.  It is neither
    the padded intrinsic composed with the inverse, nor the transpose of
    that product, and it sends the lidar point at the camera's own position
    to a point with last coordinate 0. *)
Theorem lidar2img_transposes_inverse :
  exists d self',
    get_data_info demo_convert_other zoom_dataset 0 = (Ok d, self') /\
    pts_filename d = lidar_path zoom_info /\
    img_filename d = map (image_path zoom_dataset zoom_info) camera_list /\
    ann_info d = Some None /\
    lidar2img d = repeat zoom_stored 7 /\
    spec_lidar2img zoom_calib = Ok zoom_lidar2img /\
    zoom_stored <> zoom_lidar2img /\
    zoom_stored <> transpose4 zoom_lidar2img /\
    dot4 (bottom_row zoom_stored) (1, 0, 0, 1) = 0 /\
    dot4 (bottom_row zoom_lidar2img) (1, 0, 0, 1) = 1.
Proof.
  assert (Hspec : spec_lidar2img zoom_calib = Ok zoom_lidar2img).
  { unfold spec_lidar2img. cbn [cam_to_velo cam_intrinsic zoom_calib].
    rewrite linalg_inv_shift_x. cbn [bind].
    unfold matmul4, viewpad_of, zoom_intrinsic, shift_x_back, zoom_lidar2img,
      transpose4, dot4.
    real_components. }
  assert (Hentry : forall camera, In camera camera_list ->
            camera_entry zoom_dataset zoom_info camera
            = Ok (image_path zoom_dataset zoom_info camera, zoom_stored)).
  { intros camera Hin. unfold camera_entry.
    fold (image_path zoom_dataset zoom_info camera).
    replace (dict_get (calib zoom_info) camera) with (Some zoom_calib).
    - cbn [cam_to_velo cam_intrinsic zoom_calib].
      rewrite linalg_inv_shift_x. cbn [bind].
      unfold matmul4, viewpad_of, zoom_intrinsic, shift_x_back, zoom_stored,
        transpose4, dot4.
      real_components.
    - cbn in Hin.
      repeat (destruct Hin as [<-|Hin]; [reflexivity|]). contradiction. }
  assert (Hloop : mapM (camera_entry zoom_dataset zoom_info) camera_list
                  = Ok (map (fun camera =>
                               (image_path zoom_dataset zoom_info camera,
                                zoom_stored)) camera_list)).
  { revert Hentry. generalize camera_list. intros cams.
    induction cams as [|camera t IH]; intros H; cbn [mapM map].
    - reflexivity.
    - rewrite (H camera (or_introl eq_refl)), IH; [reflexivity|].
      intros c Hc. apply H. now right. }
  eexists _, _. split.
  - rewrite (get_data_info_unfold demo_convert_other zoom_dataset 0
               zoom_info _ eq_refl Hloop).
    cbv zeta. cbn [test_mode zoom_dataset negb].
    rewrite (get_ann_info_unlabelled demo_convert_other zoom_dataset 0
               zoom_info eq_refl eq_refl).
    reflexivity.
  - cbn [pts_filename img_filename ann_info lidar2img].
    rewrite !map_map. cbn [fst snd].
    split; [reflexivity|]. split; [reflexivity|]. split; [reflexivity|].
    split; [reflexivity|]. split; [exact Hspec|].
    unfold zoom_stored, zoom_lidar2img, transpose4, bottom_row, dot4.
    split; [intros E; injection E; intros; lra|].
    split; [intros E; injection E; intros; lra|].
    split; lra.
Qed.

(** ** Training samples *)

Lemma no_valid_label_all (labels : list Z) :
  no_valid_label labels = true <-> Forall (fun l => l = (-1)%Z) labels.
Proof.
  unfold no_valid_label. induction labels as [|l t IH]; cbn.
  - split; [constructor|reflexivity].
  - destruct (Z.eqb_spec l (-1)) as [E|N]; cbn.
    + rewrite IH. split; [now constructor|]. intros H. now inversion H.
    + split; [discriminate|]. intros H. inversion H. contradiction.
Qed.

Section TrainingSample.

Variable convert_other : BoxMode -> list Box -> list Box.
Variable pre_pipeline : OnceDataset -> InputDict -> InputDict.
Variable pipeline : InputDict -> option Example.

Let prepare := prepare_train_data convert_other pre_pipeline pipeline.

(** C9: in a training dataset, on a calibrated frame,
    [prepare_train_data] returns [None] when the frame has no annotation
    info; on an annotated frame it returns [None] when [filter_empty_gt]
    is set and the pipeline gives [None] or only labels [-1], and the
    pipeline's output otherwise.  The labels [get_ann_info] assigns are
    the position of the name in the class list, [-1] for a name outside
    it. *)
Theorem prepare_train_data_filters (self : OnceDataset) (index : Z)
  (info : Info) :
  py_getitem (data_infos self) index = Some info ->
  test_mode self = false ->
  calibrated info ->
  (annos info = None -> prepare self index = (Ok None, self)) /\
  (forall an b rest,
      annos info = Some an -> annos_boxes_3d an = b :: rest ->
      exists d res self',
        get_data_info convert_other self index = (Ok d, self') /\
        ann_info d = Some (Some res) /\
        gt_labels res = map (label_of (CLASSES self)) (annos_name an) /\
        gt_labels_3d res = gt_labels res /\
        let example := pipeline (pre_pipeline self' d) in
        (filter_empty_gt self = true ->
         example = None \/
         (exists ex, example = Some ex /\
                     Forall (fun l => l = (-1)%Z) (example_gt_labels_3d ex)) ->
         prepare self index = (Ok None, self')) /\
        (filter_empty_gt self = false \/
         (exists ex l, example = Some ex /\
                       In l (example_gt_labels_3d ex) /\ l <> (-1)%Z) ->
         prepare self index = (Ok example, self'))) /\
  (forall cat,
      (In cat (CLASSES self) ->
       exists i, label_of (CLASSES self) cat = Z.of_nat i /\
                 nth_error (CLASSES self) i = Some cat) /\
      (~ In cat (CLASSES self) -> label_of (CLASSES self) cat = (-1)%Z)) /\
  map (label_of default_CLASSES) default_CLASSES = [0; 1; 2; 3; 4]%Z.
Proof.
  intros Hget Htest Hcal.
  destruct (camera_loop_total self info Hcal) as [entries [Hloop _]].
  pose proof (get_data_info_unfold convert_other self index info entries
                Hget Hloop) as Hinfo.
  cbv zeta in Hinfo. rewrite Htest in Hinfo.
  split; [|split; [|split]].
  - intros Han.
    rewrite (get_ann_info_unlabelled convert_other self index info Hget Han)
      in Hinfo.
    unfold prepare, prepare_train_data. now rewrite Hinfo.
  - intros an b rest Han Hb.
    rewrite (get_ann_info_annotated convert_other self index info an b rest
               Hget Han Hb) in Hinfo.
    eexists _, _, _. split; [exact Hinfo|].
    cbn [ann_info gt_labels gt_labels_3d].
    split; [reflexivity|]. split; [reflexivity|]. split; [reflexivity|].
    cbv zeta. unfold prepare, prepare_train_data. rewrite Hinfo.
    cbn [ann_info].
    destruct (store_boxes_flags self index
                (map spec_ground_truth_box (b :: rest)))
      as (_ & Hfilter & _).
    rewrite Hfilter.
    split.
    + intros Hf [Hnone|[ex [Hex Hall]]]; rewrite Hf.
      * now rewrite Hnone.
      * rewrite Hex. apply no_valid_label_all in Hall. now rewrite Hall.
    + intros [Hf|[ex [l [Hex [Hin Hl]]]]].
      * now rewrite Hf.
      * rewrite Hex.
        assert (Hno : no_valid_label (example_gt_labels_3d ex) = false).
        { destruct (no_valid_label (example_gt_labels_3d ex)) eqn:E;
            [|reflexivity].
          apply no_valid_label_all in E.
          rewrite Forall_forall in E. elim Hl. now apply E. }
        rewrite Hno, andb_false_r. reflexivity.
  - intros cat. split.
    + intros Hin. destruct (label_of_member _ _ Hin) as [i [H1 [H2 _]]]. eauto.
    + apply label_of_other.
  - reflexivity.
Qed.

End TrainingSample.

(** ** Repeated annotation access *)

(** C5, evaluated on a dataset of one annotated frame: the first call of
    [get_ann_info] leaves a different record behind, and the second call
    returns different boxes (every centre turned by a further quarter). *)
Theorem get_ann_info_twice_differs :
  exists r1 s1 r2 s2,
    get_ann_info demo_convert_other one_frame_dataset 0 = (Ok (Some r1), s1) /\
    get_ann_info demo_convert_other s1 0 = (Ok (Some r2), s2) /\
    data_infos s1 <> data_infos one_frame_dataset /\
    map center (gt_bboxes_3d r1) = [(0, 1, -1); (-3, 0, 0)] /\
    map center (gt_bboxes_3d r2) = [(-1, 0, -1); (0, -3, 0)] /\
    r1 <> r2.
Proof.
  pose proof (get_ann_info_annotated demo_convert_other one_frame_dataset 0
                demo_info _ demo_box [demo_box2] eq_refl eq_refl eq_refl) as H1.
  destruct (store_boxes_lookup one_frame_dataset 0 demo_info _
              (map spec_ground_truth_box [demo_box; demo_box2])
              eq_refl eq_refl) as [Hs Ha].
  pose proof (get_ann_info_annotated demo_convert_other _ 0 _ _
                (spec_ground_truth_box demo_box)
                [spec_ground_truth_box demo_box2] Hs Ha eq_refl) as H2.
  assert (C1 : map center
                 (LiDARInstance3DBoxes
                    (map spec_ground_truth_box [demo_box; demo_box2])
                    (0.5, 0.5, 0.5)) = [(0, 1, -1); (-3, 0, 0)]).
  { rewrite box_of_ground_truth. cbn [map].
    rewrite !spec_ground_truth_box_explicit.
    unfold center, set_cz, demo_box, demo_box2. cbn. real_components. }
  assert (C2 : map center
                 (LiDARInstance3DBoxes
                    (map spec_ground_truth_box
                       [spec_ground_truth_box demo_box;
                        spec_ground_truth_box demo_box2])
                    (0.5, 0.5, 0.5)) = [(-1, 0, -1); (0, -3, 0)]).
  { rewrite box_of_ground_truth. cbn [map].
    rewrite !spec_ground_truth_box_explicit.
    unfold center, set_cz, demo_box, demo_box2. cbn. real_components. }
  eexists _, _, _, _. split; [exact H1|]. split; [exact H2|].
  cbn [gt_bboxes_3d box_mode_3d one_frame_dataset convert_to].
  split; [|split; [exact C1|split; [exact C2|]]].
  - intros E.
    assert (Hi : py_getitem (data_infos one_frame_dataset) 0 = Some demo_info)
      by reflexivity.
    rewrite <- E, Hs in Hi.
    assert (Hy : annos (with_boxes demo_info
                          (map spec_ground_truth_box [demo_box; demo_box2]))
                 = annos demo_info) by congruence.
    rewrite Ha in Hy.
    apply (f_equal (fun o => match o with
                             | Some a => map yaw (annos_boxes_3d a)
                             | None => []
                             end)) in Hy.
    cbn [annos demo_info annos_boxes_3d map] in Hy.
    rewrite !spec_ground_truth_box_explicit in Hy.
    unfold demo_box, demo_box2 in Hy. cbn [yaw] in Hy.
    pose proof PI_RGT_0. injection Hy. intros. lra.
  - intros E. apply (f_equal gt_bboxes_3d) in E.
    cbn [gt_bboxes_3d] in E. apply (f_equal (map center)) in E.
    replace (box_mode_3d (store_boxes one_frame_dataset 0
               (map spec_ground_truth_box [demo_box; demo_box2])))
      with LIDAR in E by reflexivity.
    replace (box_mode_3d one_frame_dataset) with LIDAR in E by reflexivity.
    cbn [convert_to] in E. rewrite C1, C2 in E.
    injection E. intros. lra.
Qed.

(** ** Formatting predictions *)

Lemma names_of_labels_spec (classes : list string) (labels : list Z)
  (names : list string) :
  names_of_labels classes labels = Ok names ->
  Forall2 (fun l name => py_getitem classes (l - 1)%Z = Some name) labels names.
Proof.
  intros H. apply mapM_Ok_Forall2 in H.
  induction H as [|l name ls ns Hl _ IH]; constructor; auto.
  destruct (py_getitem classes (l - 1)%Z); congruence.
Qed.

(** What one formatted record holds, for a plain result with boxes and
    scores. *)
Lemma format_frame_record (self : OnceDataset) (idx : nat) (info : Info)
  (d : Detection) (b : Box) (rest : list Box) (s : R) (scores : list R)
  (names : list string) :
  nth_error (data_infos self) idx = Some info ->
  boxes_3d d = b :: rest ->
  scores_3d d = s :: scores ->
  names_of_labels (CLASSES self) (labels_3d d) = Ok names ->
  format_frame self idx (Single d)
  = Ok (mkPredDict names (scores_3d d)
                   (map spec_prediction_box (boxes_3d d)) (frame_id info)).
Proof.
  intros Hinfo Hb Hs Hn. unfold format_frame. rewrite Hinfo.
  cbn [as_detection bind]. rewrite Hb, format_boxes_3d_cons. cbn [bind].
  rewrite Hs. cbn [List.length Nat.eqb]. rewrite Hn. reflexivity.
Qed.

(** A frame without a predicted box stops in [_format_boxes_3d], before the
    test on [num_samples]. *)
Lemma format_frame_no_prediction (self : OnceDataset) (idx : nat) (info : Info)
  (d : Detection) :
  nth_error (data_infos self) idx = Some info ->
  boxes_3d d = [] ->
  format_frame self idx (Single d) = Raise ValueError.
Proof.
  intros Hinfo Hb. unfold format_frame. rewrite Hinfo.
  cbn [as_detection bind]. now rewrite Hb.
Qed.

(** C6, evaluated on one frame with one predicted box of label [0]: the
    record carries the frame's identifier, the score and the converted box,
    but the name written is the last class, ['Cyclist'], while label [0] is
    the label [get_ann_info] gives to ['Car']. *)
Theorem format_results_names_shifted :
  exists record fs',
    _format_results one_frame_dataset demo_results (Some "out") empty_fs
    = (Ok "out/results_once.json", fs') /\
    fs_files fs' = [("out/results_once.json", [record])] /\
    pred_frame_id record = "000076" /\
    pred_score record = [0.9] /\
    pred_boxes_3d record = map spec_prediction_box (boxes_3d demo_detection) /\
    labels_3d demo_detection = [0%Z] /\
    label_of (CLASSES one_frame_dataset) "Car" = 0%Z /\
    py_getitem (CLASSES one_frame_dataset) 0 = Some "Car" /\
    pred_name record = ["Cyclist"].
Proof.
  eexists _, _. split.
  - unfold _format_results, demo_results. cbn [format_frames].
    rewrite (format_frame_record one_frame_dataset 0 demo_info demo_detection
               _ _ _ _ ["Cyclist"] eq_refl eq_refl eq_refl eq_refl).
    cbn [bind]. reflexivity.
  - cbn [fs_files dump mkdir_or_exist]. repeat split; reflexivity.
Qed.

(** ** Dictionaries *)

Lemma dict_get_In {V : Type} (d : dict V) (k : string) (v : V) :
  dict_get d k = Some v -> In (k, v) d.
Proof.
  induction d as [|[k' v'] t IH]; cbn; [discriminate|].
  destruct (String.eqb k' k) eqn:E.
  - apply String.eqb_eq in E. subst k'. intros H. injection H as ->. now left.
  - intros H. right. now apply IH.
Qed.

Lemma dict_mem_keys {V : Type} (d : dict V) (k : string) :
  dict_mem d k = true <-> In k (dict_keys d).
Proof.
  unfold dict_mem. induction d as [|[k' v'] t IH]; cbn.
  - split; [discriminate|contradiction].
  - destruct (String.eqb k' k) eqn:E.
    + apply String.eqb_eq in E. subst k'. split; auto.
    + apply String.eqb_neq in E. rewrite IH. split; [auto|].
      intros [H|H]; [contradiction|exact H].
Qed.

Lemma dict_set_keys {V : Type} (d : dict V) (k k' : string) (v : V) :
  In k (dict_keys (dict_set d k' v)) <-> k = k' \/ In k (dict_keys d).
Proof.
  induction d as [|[k0 v0] t IH]; cbn.
  - split; [intros [H|[]]; auto|intros [H|[]]; auto].
  - destruct (String.eqb k0 k') eqn:E; cbn.
    + apply String.eqb_eq in E. subst k0. split; [auto|].
      intros [H|H]; [left; now symmetry|exact H].
    + rewrite IH. split; intros H; intuition.
Qed.

Lemma dict_set_NoDup {V : Type} (d : dict V) (k : string) (v : V) :
  NoDup (dict_keys d) -> NoDup (dict_keys (dict_set d k v)).
Proof.
  induction d as [|[k0 v0] t IH]; cbn; intros H.
  - constructor; [intros []|constructor].
  - destruct (String.eqb k0 k) eqn:E; cbn; [exact H|].
    apply String.eqb_neq in E. inversion H as [|? ? Hnot Ht]; subst.
    constructor; [|now apply IH].
    intros Hin. apply dict_set_keys in Hin. destruct Hin as [Hin|Hin];
      [now subst|contradiction].
Qed.

Lemma dict_set_In {V : Type} (d : dict V) (k k' : string) (v v' : V) :
  In (k, v) (dict_set d k' v') -> (k = k' /\ v = v') \/ In (k, v) d.
Proof.
  induction d as [|[k0 v0] t IH]; cbn.
  - intros [H|[]]. injection H as <- <-. now left.
  - destruct (String.eqb k0 k') eqn:E; cbn.
    + apply String.eqb_eq in E. subst k0.
      intros [H|H]; [injection H as <- <-; now left|right; now right].
    + intros [H|H]; [right; now left|].
      destruct (IH H) as [?|?]; [now left|right; now right].
Qed.

Lemma dict_get_set_same {V : Type} (d : dict V) (k : string) (v : V) :
  dict_get (dict_set d k v) k = Some v.
Proof.
  induction d as [|[k0 v0] t IH]; cbn.
  - now rewrite String.eqb_refl.
  - destruct (String.eqb k0 k) eqn:E; cbn; rewrite E; auto.
Qed.

Lemma dict_mem_set {V : Type} (d : dict V) (k k' : string) (v : V) :
  dict_mem (dict_set d k v) k' = true <-> k' = k \/ dict_mem d k' = true.
Proof. rewrite !dict_mem_keys. apply dict_set_keys. Qed.

Lemma result_mem_keys (r : Result) (k : string) :
  result_mem r k = true <-> In k (result_keys r).
Proof.
  destruct r as [d|m]; cbn [result_mem result_keys].
  - rewrite existsb_exists. split.
    + intros [x [Hin E]]. apply String.eqb_eq in E. now subst.
    + intros Hin. exists k. split; [exact Hin|apply String.eqb_refl].
  - apply dict_mem_keys.
Qed.

(** ** Writing result files *)

Lemma format_results_inner (self : OnceDataset) (results : list Result)
  (prefix : string) (fs : FileSystem) (p : string) (fs' : FileSystem) :
  _format_results self results (Some prefix) fs = (Ok p, fs') ->
  p = path_join prefix ["results_once.json"] /\
  exists records,
    format_frames self 0 results = Ok records /\
    fs' = dump records p (mkdir_or_exist prefix fs) /\
    dict_get (fs_files fs') p = Some records.
Proof.
  unfold _format_results.
  destruct (format_frames self 0 results) as [records|]; [|discriminate].
  intros H. injection H as <- <-. split; [reflexivity|].
  exists records. repeat split. cbn [fs_files dump]. apply dict_get_set_same.
Qed.

Lemma format_results_inner_keeps (self : OnceDataset) (results : list Result)
  (prefix : option string) (fs : FileSystem) (out : outcome string)
  (fs' : FileSystem) (path : string) :
  _format_results self results prefix fs = (out, fs') ->
  dict_mem (fs_files fs) path = true -> dict_mem (fs_files fs') path = true.
Proof.
  unfold _format_results.
  destruct (format_frames self 0 results) as [records|].
  - destruct prefix as [prefix|]; intros H; injection H as <- <-; auto.
    intros Hmem. cbn [fs_files dump]. apply dict_mem_set. right.
    unfold mkdir_or_exist.
    destruct (String.eqb prefix ""); [exact Hmem|].
    destruct (existsb (String.eqb prefix) (fs_dirs fs)); exact Hmem.
  - intros H. injection H as <- <-. auto.
Qed.

Lemma format_modalities_dict (self : OnceDataset) (results : list Result)
  (prefix : string) (names : list string) :
  forall (acc : dict string) (fs : FileSystem) (d : dict string)
         (fs' : FileSystem),
    format_modalities self results prefix names acc fs = (Ok d, fs') ->
    (forall k, In k (dict_keys d) <-> In k (dict_keys acc) \/ In k names) /\
    (NoDup (dict_keys acc) -> NoDup (dict_keys d)) /\
    (forall k p, In (k, p) d ->
       In (k, p) acc \/
       (In k names /\
        p = path_join (path_join prefix [k]) ["results_once.json"])) /\
    (forall path, dict_mem (fs_files fs) path = true ->
                  dict_mem (fs_files fs') path = true) /\
    ((forall k p, In (k, p) acc -> dict_mem (fs_files fs) p = true) ->
     forall k p, In (k, p) d -> dict_mem (fs_files fs') p = true).
Proof.
  induction names as [|name rest IH]; intros acc fs d fs'; cbn [format_modalities].
  - intros H. injection H as <- <-.
    repeat split; auto.
    + intros [H|[]]; exact H.
  - destruct (mapM (fun out => result_getitem out name) results)
      as [results_|]; [|discriminate].
    destruct (_format_results self (map Single results_)
                (Some (path_join prefix [name])) fs) as [[p|] fs1] eqn:Hf;
      [|discriminate].
    intros H. destruct (IH _ _ _ _ H) as (Hk & Hn & Hp & Hm & Hfiles).
    destruct (format_results_inner _ _ _ _ _ _ Hf) as (Hpath & recs & _ & _ & Hg).
    split; [|split; [|split; [|split]]].
    + intros k. rewrite Hk, dict_set_keys. cbn [In]. intuition.
    + intros Hnd. apply Hn. now apply dict_set_NoDup.
    + intros k q Hin. destruct (Hp k q Hin) as [Hacc|[Hr Hq]].
      * apply dict_set_In in Hacc. destruct Hacc as [[-> ->]|Hacc];
          [right; split; [now left|exact Hpath]|now left].
      * right. split; [now right|exact Hq].
    + intros path Hmem. apply Hm.
      eapply format_results_inner_keeps; eauto.
    + intros Hacc k q Hin. apply Hfiles with k; [|exact Hin].
      intros k0 p0 H0. apply dict_set_In in H0.
      destruct H0 as [[-> ->]|H0].
      * unfold dict_mem. now rewrite Hg.
      * eapply format_results_inner_keeps; eauto.
Qed.

(** What [format_results] does once the assertions have passed and the
    prefix is fixed. *)
Lemma format_results_branches (self : OnceDataset) (r0 : Result)
  (rest : list Result) (prefix : string) (fs0 : FileSystem)
  (result_files : ResultFiles) (fs' : FileSystem) :
  (if negb (result_mem r0 "pts_bbox" || result_mem r0 "img_bbox") then
     match _format_results self (r0 :: rest) (Some prefix) fs0 with
     | (Raise e, fs1) => (Raise e, fs1)
     | (Ok p, fs1) => (Ok (Path p), fs1)
     end
   else
     match format_modalities self (r0 :: rest) prefix (result_keys r0) []
                             fs0 with
     | (Raise e, fs1) => (Raise e, fs1)
     | (Ok d, fs1) => (Ok (PathDict d), fs1)
     end) = (Ok result_files, fs') ->
    (result_mem r0 "pts_bbox" = false /\ result_mem r0 "img_bbox" = false ->
     result_files = Path (path_join prefix ["results_once.json"]) /\
     exists records,
       format_frames self 0 (r0 :: rest) = Ok records /\
       dict_get (fs_files fs') (path_join prefix ["results_once.json"])
       = Some records) /\
    (result_mem r0 "pts_bbox" = true \/ result_mem r0 "img_bbox" = true ->
     exists d,
       result_files = PathDict d /\
       NoDup (dict_keys d) /\
       (forall name, In name (dict_keys d) <-> In name (result_keys r0)) /\
       (forall name, result_mem r0 name = true ->
          dict_get d name
          = Some (path_join (path_join prefix [name]) ["results_once.json"])) /\
       (forall name p, In (name, p) d ->
          p = path_join (path_join prefix [name]) ["results_once.json"] /\
          dict_mem (fs_files fs') p = true)).
Proof.
  intros H.
  destruct (result_mem r0 "pts_bbox" || result_mem r0 "img_bbox")%bool eqn:Hm;
    cbn [negb] in H.
  - destruct (format_modalities self (r0 :: rest) prefix (result_keys r0)
                [] fs0) as [[d|] fs1] eqn:Hd; [|discriminate].
    injection H as <- <-.
    destruct (format_modalities_dict _ _ _ _ _ _ _ _ Hd)
      as (Hk & Hn & Hp & _ & Hfiles).
    split.
    + intros [H1 H2]. rewrite H1, H2 in Hm. discriminate.
    + intros _. exists d. split; [reflexivity|].
      split; [apply Hn; constructor|].
      assert (Hkeys : forall name,
                In name (dict_keys d) <-> In name (result_keys r0)).
      { intros name. rewrite Hk. cbn [dict_keys map In]. intuition. }
      assert (Hvalues : forall name p, In (name, p) d ->
                p = path_join (path_join prefix [name]) ["results_once.json"]).
      { intros name p Hin. destruct (Hp name p Hin) as [[]|[_ Hq]]. exact Hq. }
      split; [exact Hkeys|]. split.
      * intros name Hname.
        apply result_mem_keys, Hkeys, dict_mem_keys in Hname.
        unfold dict_mem in Hname.
        destruct (dict_get d name) as [p|] eqn:Hg; [|discriminate].
        f_equal. apply Hvalues. now apply dict_get_In.
      * intros name p Hin. split; [now apply Hvalues|].
        apply Hfiles with name; [|exact Hin]. intros k q [].
  - destruct (_format_results self (r0 :: rest) (Some prefix) fs0)
      as [[p|] fs1] eqn:Hf; [|discriminate].
    injection H as <- <-.
    destruct (format_results_inner _ _ _ _ _ _ Hf)
      as (Hpath & records & Hfr & _ & Hg).
    split.
    + intros _. rewrite <- Hpath. split; [reflexivity|].
      exists records. now split.
    + intros [H1|H1]; rewrite H1 in Hm; cbn in Hm;
        [|rewrite orb_true_r in Hm]; discriminate.
Qed.

(** C10: [format_results] raises [AssertionError], with the file system as it
    was, when [results] is not a list or its length is not the dataset's;
    when it returns, the first result decides the shape of the value.  If it
    has neither ['pts_bbox'] nor ['img_bbox'] the value is the single path
    [prefix/results_once.json], and the file there holds the formatted
    records; otherwise it is a dict holding, for each key of the first
    result and nothing else, the path [prefix/key/results_once.json], and
    each of these files has been written.  The prefix is the one given, or
    [results] under the temporary directory, which is then handed back. *)
Theorem format_results_checks_and_shape (self : OnceDataset)
  (results : PyResults) (jsonfile_prefix : option string) (tmp_name : string)
  (fs : FileSystem) :
  (results = NotAList ->
   format_results self results jsonfile_prefix tmp_name fs
   = (Raise (AssertionError "results must be a list"), fs)) /\
  (forall l, results = ResultList l ->
     List.length l <> len_dataset self ->
     format_results self results jsonfile_prefix tmp_name fs
     = (Raise (AssertionError
                 (length_message (List.length l) (len_dataset self))), fs)) /\
  (forall l result_files tmp_dir fs',
     results = ResultList l ->
     format_results self results jsonfile_prefix tmp_name fs
     = (Ok (result_files, tmp_dir), fs') ->
     let prefix := match jsonfile_prefix with
                   | Some p => p
                   | None => path_join tmp_name ["results"]
                   end in
     tmp_dir = match jsonfile_prefix with
               | Some _ => None
               | None => Some tmp_name
               end /\
     exists r0 rest,
       l = r0 :: rest /\
       (result_mem r0 "pts_bbox" = false /\ result_mem r0 "img_bbox" = false ->
        result_files = Path (path_join prefix ["results_once.json"]) /\
        exists records,
          format_frames self 0 l = Ok records /\
          dict_get (fs_files fs') (path_join prefix ["results_once.json"])
          = Some records) /\
       (result_mem r0 "pts_bbox" = true \/ result_mem r0 "img_bbox" = true ->
        exists d,
          result_files = PathDict d /\
          NoDup (dict_keys d) /\
          (forall name, In name (dict_keys d) <-> In name (result_keys r0)) /\
          (forall name, result_mem r0 name = true ->
             dict_get d name
             = Some (path_join (path_join prefix [name])
                               ["results_once.json"])) /\
          (forall name p, In (name, p) d ->
             p = path_join (path_join prefix [name]) ["results_once.json"] /\
             dict_mem (fs_files fs') p = true))).
Proof.
  split; [|split].
  - intros ->. reflexivity.
  - intros l -> Hlen. cbn [format_results].
    destruct (Nat.eqb_spec (List.length l) (len_dataset self)) as [E|_];
      [contradiction|reflexivity].
  - intros l result_files tmp_dir fs' -> H. cbv zeta.
    cbn [format_results] in H.
    destruct (Nat.eqb (List.length l) (len_dataset self)); cbn [negb] in H;
      [|discriminate].
    destruct jsonfile_prefix as [given|].
    + destruct l as [|r0 rest]; [discriminate|].
      assert (Htmp : tmp_dir = None).
      { destruct (negb (result_mem r0 "pts_bbox" || result_mem r0 "img_bbox")).
        - destruct (_format_results self (r0 :: rest) (Some given) fs)
            as [[p|] fs1]; [|discriminate]. now injection H as _ <- _.
        - destruct (format_modalities self (r0 :: rest) given (result_keys r0)
                      [] fs) as [[d|] fs1]; [|discriminate].
          now injection H as _ <- _. }
      split; [exact Htmp|]. exists r0, rest. split; [reflexivity|].
      apply (format_results_branches self r0 rest given fs result_files fs').
      destruct (negb (result_mem r0 "pts_bbox" || result_mem r0 "img_bbox")).
      * destruct (_format_results self (r0 :: rest) (Some given) fs)
          as [[p|] fs1]; [|discriminate]. now injection H as <- _ <-.
      * destruct (format_modalities self (r0 :: rest) given (result_keys r0)
                    [] fs) as [[d|] fs1]; [|discriminate].
        now injection H as <- _ <-.
    + destruct l as [|r0 rest]; [discriminate|].
      assert (Htmp : tmp_dir = Some tmp_name).
      { destruct (negb (result_mem r0 "pts_bbox" || result_mem r0 "img_bbox")).
        - destruct (_format_results self (r0 :: rest)
                      (Some (path_join tmp_name ["results"]))
                      (mkFS (fs_dirs fs ++ [tmp_name]) (fs_files fs)))
            as [[p|] fs1]; [|discriminate]. now injection H as _ <- _.
        - destruct (format_modalities self (r0 :: rest)
                      (path_join tmp_name ["results"]) (result_keys r0) []
                      (mkFS (fs_dirs fs ++ [tmp_name]) (fs_files fs)))
            as [[d|] fs1]; [|discriminate].
          now injection H as _ <- _. }
      split; [exact Htmp|]. exists r0, rest. split; [reflexivity|].
      apply (format_results_branches self r0 rest
               (path_join tmp_name ["results"])
               (mkFS (fs_dirs fs ++ [tmp_name]) (fs_files fs))
               result_files fs').
      destruct (negb (result_mem r0 "pts_bbox" || result_mem r0 "img_bbox")).
      * destruct (_format_results self (r0 :: rest)
                    (Some (path_join tmp_name ["results"]))
                    (mkFS (fs_dirs fs ++ [tmp_name]) (fs_files fs)))
          as [[p|] fs1]; [|discriminate]. now injection H as <- _ <-.
      * destruct (format_modalities self (r0 :: rest)
                    (path_join tmp_name ["results"]) (result_keys r0) []
                    (mkFS (fs_dirs fs ++ [tmp_name]) (fs_files fs)))
          as [[d|] fs1]; [|discriminate].
        now injection H as <- _ <-.
Qed.

(** ** Rounding to four decimals *)

Lemma round_half_even_close (y : R) :
  - (1 / 2) <= IZR (round_half_even y) - y <= 1 / 2.
Proof.
  unfold round_half_even.
  destruct (base_Int_part y) as [Hlo Hhi].
  destruct (Rlt_dec (y - IZR (Int_part y)) (1 / 2)) as [H1|H1].
  - lra.
  - assert (Hup : - (1 / 2) <= IZR (Int_part y + 1) - y <= 1 / 2)
      by (rewrite plus_IZR; lra).
    destruct (Rlt_dec (1 / 2) (y - IZR (Int_part y))) as [H2|H2];
      [exact Hup|].
    destruct (Z.even (Int_part y)); [lra|exact Hup].
Qed.

Lemma format_4f_rounds (x : R) :
  exists n : Z, format_4f x = IZR n / 10000 /\
                Rabs (format_4f x - x) <= 1 / 20000.
Proof.
  exists (round_half_even (x * 10000)). split; [reflexivity|].
  unfold format_4f.
  pose proof (round_half_even_close (x * 10000)) as H.
  apply Rabs_le. lra.
Qed.

(** ** Evaluation *)

Lemma republish_In (name : string) (ap_dict_ : dict R) :
  forall (acc : dict R) (key : string) (v : R),
    In (key, v) (republish name ap_dict_ acc) ->
    In (key, v) acc \/
    exists ap_type x,
      In (ap_type, x) ap_dict_ /\
      key = String.append name (String.append "/" ap_type) /\
      v = format_4f x.
Proof.
  unfold republish.
  induction ap_dict_ as [|[ap_type x] t IH]; intros acc key v; cbn [fold_left].
  - auto.
  - intros H. destruct (IH _ _ _ H) as [Hacc|(a & y & Hin & Hk & Hv)].
    + cbn [fst snd] in Hacc. apply dict_set_In in Hacc.
      destruct Hacc as [[-> ->]|Hacc]; [|now left].
      right. exists ap_type, x. split; [now left|auto].
    + right. exists a, y. split; [now right|auto].
Qed.

Lemma republish_mem (name : string) (ap_dict_ : dict R) :
  forall (acc : dict R) (key : string),
    dict_mem acc key = true \/
    (exists ap_type x, In (ap_type, x) ap_dict_ /\
                       key = String.append name (String.append "/" ap_type)) ->
    dict_mem (republish name ap_dict_ acc) key = true.
Proof.
  unfold republish.
  induction ap_dict_ as [|[ap_type x] t IH]; intros acc key; cbn [fold_left].
  - intros [H|(a & y & [] & _)]. exact H.
  - intros H. apply IH. cbn [fst snd].
    destruct H as [H|(a & y & [Hin|Hin] & Hk)].
    + left. apply dict_mem_set. now right.
    + injection Hin as <- <-. left. apply dict_mem_set. now left.
    + right. eauto.
Qed.

Lemma collect_gt_annos_all (self : OnceDataset) (gt : list Annos) :
  collect_gt_annos self = Ok gt -> map annos (data_infos self) = map Some gt.
Proof.
  unfold collect_gt_annos. intros H. apply mapM_Ok_Forall2 in H.
  induction H as [|info an infos ans Hi _ IH]; cbn [map]; [reflexivity|].
  destruct (annos info) as [a|]; [|discriminate].
  injection Hi as <-. now rewrite IH.
Qed.

Section Evaluation.

Variable once_eval :
  FileSystem -> list Annos -> string -> list string -> option (list string) ->
  outcome (string * dict R).

(** The loop over the modalities, when the metric function returns for
    each of them. *)
Lemma evaluate_modalities_spec (self : OnceDataset) (fs : FileSystem)
  (gt : list Annos) (items : dict string) :
  (forall name file, In (name, file) items ->
     exists s ap, once_eval fs gt file (CLASSES self)
                            (Some ["Overall&Distance"]) = Ok (s, ap)) ->
  forall acc,
  exists out,
    evaluate_modalities once_eval self fs gt items acc = Ok out /\
    (forall key v, In (key, v) out ->
       In (key, v) acc \/
       exists name file s ap ap_type x,
         In (name, file) items /\
         once_eval fs gt file (CLASSES self) (Some ["Overall&Distance"])
         = Ok (s, ap) /\
         In (ap_type, x) ap /\
         key = String.append name (String.append "/" ap_type) /\
         v = format_4f x) /\
    (forall key, dict_mem acc key = true -> dict_mem out key = true) /\
    (forall name file s ap ap_type x,
       In (name, file) items ->
       once_eval fs gt file (CLASSES self) (Some ["Overall&Distance"])
       = Ok (s, ap) ->
       In (ap_type, x) ap ->
       dict_mem out (String.append name (String.append "/" ap_type)) = true).
Proof.
  induction items as [|[name file] rest IH]; intros Hall acc;
    cbn [evaluate_modalities].
  - exists acc. split; [reflexivity|]. split; [auto|]. split; [auto|].
    intros ? ? ? ? ? ? [].
  - destruct (Hall name file (or_introl eq_refl)) as (s & ap & Hev).
    rewrite Hev. cbn [bind].
    destruct (IH (fun n f H => Hall n f (or_intror H))
                 (republish name ap acc)) as (out & Hout & Hin & Hmem & Hnew).
    exists out. split; [exact Hout|]. split; [|split].
    + intros key v Hkv. destruct (Hin key v Hkv) as [Hr|Hr].
      * apply republish_In in Hr.
        destruct Hr as [Hr|(a & x & Ha & Hk & Hv)]; [now left|].
        right. exists name, file, s, ap, a, x.
        split; [now left|auto].
      * destruct Hr as (n & f & s' & ap' & a & x & Hi & He & Ha & Hk & Hv).
        right. exists n, f, s', ap', a, x. split; [now right|auto].
    + intros key Hk. apply Hmem. apply republish_mem. now left.
    + intros n f s' ap' a x [Hi|Hi] He Ha.
      * injection Hi as <- <-. rewrite Hev in He. injection He as <- <-.
        apply Hmem. apply republish_mem. right. eauto.
      * eapply Hnew; eauto.
Qed.

(** C8: once the results are formatted and every frame has annotations,
    [evaluate] hands the metric function the annotations of all frames
    and the path of a dumped result file.  With a single result file it
    returns the metric function's dict as it is; with a dict of result
    files it returns a dict whose every key is a modality name, a slash
    and a metric name of that modality, and whose value is that metric
    rounded to four decimals. *)
Theorem evaluate_republishes (self : OnceDataset) (results : PyResults)
  (jsonfile_prefix : option string) (tmp_name : string) (fs : FileSystem)
  (result_files : ResultFiles) (tmp_dir : option string) (fs1 : FileSystem)
  (gt : list Annos) :
  format_results self results jsonfile_prefix tmp_name fs
  = (Ok (result_files, tmp_dir), fs1) ->
  collect_gt_annos self = Ok gt ->
  map annos (data_infos self) = map Some gt /\
  (forall p, result_files = Path p ->
     dict_mem (fs_files fs1) p = true /\
     forall s ap,
       once_eval fs1 gt p (CLASSES self) None = Ok (s, ap) ->
       evaluate once_eval self results jsonfile_prefix tmp_name fs
       = (Ok ap, cleanup tmp_dir fs1)) /\
  (forall d, result_files = PathDict d ->
     (forall name file, In (name, file) d ->
        dict_mem (fs_files fs1) file = true) /\
     ((forall name file, In (name, file) d ->
         exists s ap, once_eval fs1 gt file (CLASSES self)
                                (Some ["Overall&Distance"]) = Ok (s, ap)) ->
      exists ap_dict,
        evaluate once_eval self results jsonfile_prefix tmp_name fs
        = (Ok ap_dict, cleanup tmp_dir fs1) /\
        (forall key v, In (key, v) ap_dict ->
           exists name file s ap ap_type x,
             In (name, file) d /\
             once_eval fs1 gt file (CLASSES self) (Some ["Overall&Distance"])
             = Ok (s, ap) /\
             In (ap_type, x) ap /\
             key = String.append name (String.append "/" ap_type) /\
             v = format_4f x) /\
        (forall name file s ap ap_type x,
           In (name, file) d ->
           once_eval fs1 gt file (CLASSES self) (Some ["Overall&Distance"])
           = Ok (s, ap) ->
           In (ap_type, x) ap ->
           dict_mem ap_dict (String.append name (String.append "/" ap_type))
           = true))) /\
  (forall x, exists n : Z, format_4f x = IZR n / 10000 /\
                           Rabs (format_4f x - x) <= 1 / 20000).
Proof.
  intros Hfmt Hgt.
  split; [now apply collect_gt_annos_all|].
  split; [|split; [|exact format_4f_rounds]].
  - intros p ->. split.
    + destruct results as [l|]; [|discriminate].
      cbn [format_results] in Hfmt.
      destruct (negb (Nat.eqb (List.length l) (len_dataset self)));
        [discriminate|].
      destruct (match jsonfile_prefix with
                | Some p => (p, None, fs)
                | None => (path_join tmp_name ["results"], Some tmp_name,
                           mkFS (fs_dirs fs ++ [tmp_name]) (fs_files fs))
                end) as [[prefix tmp] fs0].
      destruct l as [|r0 rest]; [discriminate|].
      destruct (negb (result_mem r0 "pts_bbox" || result_mem r0 "img_bbox")).
      * destruct (_format_results self (r0 :: rest) (Some prefix) fs0)
          as [[q|] fs2] eqn:Hf; [|discriminate].
        injection Hfmt as <- <- <-.
        destruct (format_results_inner _ _ _ _ _ _ Hf)
          as (_ & recs & _ & _ & Hg).
        unfold dict_mem. now rewrite Hg.
      * destruct (format_modalities self (r0 :: rest) prefix
                    (result_keys r0) [] fs0) as [[d|] fs2];
          discriminate.
    + intros s ap Hev. unfold evaluate. rewrite Hfmt, Hgt, Hev. reflexivity.
  - intros d ->. split.
    + destruct results as [l|]; [|discriminate].
      cbn [format_results] in Hfmt.
      destruct (negb (Nat.eqb (List.length l) (len_dataset self)));
        [discriminate|].
      destruct (match jsonfile_prefix with
                | Some p => (p, None, fs)
                | None => (path_join tmp_name ["results"], Some tmp_name,
                           mkFS (fs_dirs fs ++ [tmp_name]) (fs_files fs))
                end) as [[prefix tmp] fs0].
      destruct l as [|r0 rest]; [discriminate|].
      destruct (negb (result_mem r0 "pts_bbox" || result_mem r0 "img_bbox")).
      * destruct (_format_results self (r0 :: rest) (Some prefix) fs0)
          as [[q|] fs2]; discriminate.
      * destruct (format_modalities self (r0 :: rest) prefix
                    (result_keys r0) [] fs0) as [[d'|] fs2] eqn:Hd;
          [|discriminate].
        injection Hfmt as <- <- <-.
        destruct (format_modalities_dict _ _ _ _ _ _ _ _ Hd)
          as (_ & _ & _ & _ & Hfiles).
        apply Hfiles. intros k p [].
    + intros Hall.
      destruct (evaluate_modalities_spec self fs1 gt d Hall [])
        as (out & Hout & Hin & _ & Hnew).
      exists out. split; [|split].
      * unfold evaluate. rewrite Hfmt, Hgt, Hout. reflexivity.
      * intros key v Hkv. destruct (Hin key v Hkv) as [[]|H]. exact H.
      * exact Hnew.
Qed.

End Evaluation.

(** ** The theorems at work on the sample data *)

Lemma demo_info_has_boxes (mode : bool) :
  forall an, annos demo_info = Some an ->
             annos_boxes_3d an <> [] \/ mode = true.
Proof.
  intros an H. injection H as <-. left. discriminate.
Defined.

Lemma get_ann_info_converts_boxes_witness :
  py_getitem (data_infos demo_dataset) 0 = Some demo_info /\
  annos demo_info = Some (mkAnnos ["Car"; "Tram"] [demo_box; demo_box2]) /\
  exists res self',
    get_ann_info demo_convert_other demo_dataset 0 = (Ok (Some res), self') /\
    map gravity_center (gt_bboxes_3d res)
    = map (fun p => matvec3 ((0, -1, 0), (1, 0, 0), (0, 0, 1)) (center p))
          [demo_box; demo_box2] /\
    map dims (gt_bboxes_3d res) = map dims [demo_box; demo_box2] /\
    map yaw (gt_bboxes_3d res)
    = map (fun p => yaw p + PI / 2) [demo_box; demo_box2].
Proof.
  split; [reflexivity|]. split; [reflexivity|].
  destruct (get_ann_info_converts_boxes demo_convert_other demo_dataset 0
              demo_info (mkAnnos ["Car"; "Tram"] [demo_box; demo_box2])
              demo_box [demo_box2] eq_refl eq_refl eq_refl)
    as (res & self' & Hcall & _ & _ & Hlidar).
  exists res, self'. split; [exact Hcall|]. apply Hlidar. reflexivity.
Defined.

Lemma get_data_info_contents_witness :
  py_getitem (data_infos demo_dataset) 0 = Some demo_info /\
  calibrated demo_info /\
  exists d self',
    get_data_info demo_convert_other demo_dataset 0 = (Ok d, self') /\
    pts_filename d = "000027/lidar_roof/000076.bin" /\
    List.length (img_filename d) = 7%nat /\
    List.length (lidar2img d) = 7%nat /\
    (ann_info d <> None <-> test_mode demo_dataset = false).
Proof.
  split; [reflexivity|]. split; [exact (demo_cameras_calibrated demo_info eq_refl)|].
  destruct (get_data_info_contents demo_convert_other demo_dataset 0 demo_info
              eq_refl (demo_cameras_calibrated demo_info eq_refl)
              (demo_info_has_boxes _))
    as (d & self' & Hcall & Hpts & _ & Himg & Hmat & _ & Hann).
  exists d, self'. repeat split; try assumption; apply Hann.
Defined.

Lemma prepare_train_data_filters_witness :
  py_getitem (data_infos demo_dataset) 1 = Some unlabelled_info /\
  test_mode demo_dataset = false /\
  calibrated unlabelled_info /\
  prepare_train_data demo_convert_other demo_pre_pipeline demo_pipeline
                     demo_dataset 1 = (Ok None, demo_dataset) /\
  exists ex self',
    prepare_train_data demo_convert_other demo_pre_pipeline demo_pipeline
                       demo_dataset 0 = (Ok (Some ex), self') /\
    example_gt_labels_3d ex = [0; -1]%Z.
Proof.
  split; [reflexivity|]. split; [reflexivity|].
  split; [exact (demo_cameras_calibrated unlabelled_info eq_refl)|].
  split.
  - destruct (prepare_train_data_filters demo_convert_other demo_pre_pipeline
                demo_pipeline demo_dataset 1 unlabelled_info eq_refl eq_refl
                (demo_cameras_calibrated unlabelled_info eq_refl)) as [Hnone _].
    exact (Hnone eq_refl).
  - destruct (prepare_train_data_filters demo_convert_other demo_pre_pipeline
                demo_pipeline demo_dataset 0 demo_info eq_refl eq_refl
                (demo_cameras_calibrated demo_info eq_refl)) as (_ & Hsome & _).
    destruct (Hsome _ demo_box [demo_box2] eq_refl eq_refl)
      as (d & res & self' & _ & Hann & Hlab & H3d & _ & Hkeep).
    assert (Hex : demo_pipeline (demo_pre_pipeline self' d)
                  = Some (mkExample [0; -1]%Z d)).
    { unfold demo_pipeline, demo_pre_pipeline. rewrite Hann, H3d, Hlab.
      reflexivity. }
    exists (mkExample [0; -1]%Z d), self'. split; [|reflexivity].
    rewrite <- Hex. apply Hkeep. right.
    exists (mkExample [0; -1]%Z d), 0%Z.
    split; [exact Hex|]. split; [now left|discriminate].
Defined.

Lemma format_results_checks_and_shape_witness :
  format_results one_frame_dataset NotAList (Some "out") "tmp" empty_fs
  = (Raise (AssertionError "results must be a list"), empty_fs) /\
  format_results one_frame_dataset (ResultList []) (Some "out") "tmp" empty_fs
  = (Raise (AssertionError
              "The length of results is not equal to the dataset len: 0 != 1"),
     empty_fs) /\
  (exists fs',
     format_results one_frame_dataset (ResultList demo_results) (Some "out")
                    "tmp" empty_fs
     = (Ok (Path "out/results_once.json", None), fs') /\
     dict_mem (fs_files fs') (path_join "out" ["results_once.json"]) = true) /\
  (exists d fs',
     format_results one_frame_dataset (ResultList demo_modal_results)
                    (Some "out") "tmp" empty_fs = (Ok (PathDict d, None), fs') /\
     dict_get d "pts_bbox"
     = Some (path_join (path_join "out" ["pts_bbox"]) ["results_once.json"]) /\
     dict_mem (fs_files fs')
              (path_join (path_join "out" ["pts_bbox"]) ["results_once.json"])
     = true).
Proof.
  split; [|split; [|split]].
  - destruct (format_results_checks_and_shape one_frame_dataset NotAList
                (Some "out") "tmp" empty_fs) as [H _].
    exact (H eq_refl).
  - destruct (format_results_checks_and_shape one_frame_dataset
                (ResultList []) (Some "out") "tmp" empty_fs) as (_ & H & _).
    apply (H [] eq_refl). discriminate.
  - destruct (format_results_checks_and_shape one_frame_dataset
                (ResultList demo_results) (Some "out") "tmp" empty_fs)
      as (_ & _ & H).
    destruct (H demo_results
                (Path "out/results_once.json") None
                (snd (format_results one_frame_dataset (ResultList demo_results)
                        (Some "out") "tmp" empty_fs))
                eq_refl eq_refl) as (_ & r0 & rest & Hl & Hpath & _).
    injection Hl as <- <-.
    destruct (Hpath (conj eq_refl eq_refl)) as (_ & records & _ & Hg).
    exists (snd (format_results one_frame_dataset (ResultList demo_results)
                   (Some "out") "tmp" empty_fs)).
    split; [reflexivity|]. unfold dict_mem. now rewrite Hg.
  - destruct (format_results_checks_and_shape one_frame_dataset
                (ResultList demo_modal_results) (Some "out") "tmp" empty_fs)
      as (_ & _ & H).
    destruct (H demo_modal_results
                (PathDict [("pts_bbox", "out/pts_bbox/results_once.json")]) None
                (snd (format_results one_frame_dataset
                        (ResultList demo_modal_results)
                        (Some "out") "tmp" empty_fs))
                eq_refl eq_refl) as (_ & r0 & rest & Hl & _ & Hdict).
    injection Hl as <- <-.
    destruct (Hdict (or_introl eq_refl)) as (d & Hd & _ & _ & Hget & Hfiles).
    injection Hd as <-.
    exists [("pts_bbox", "out/pts_bbox/results_once.json")].
    exists (snd (format_results one_frame_dataset
                   (ResultList demo_modal_results)
                   (Some "out") "tmp" empty_fs)).
    split; [reflexivity|]. split; [exact (Hget "pts_bbox" eq_refl)|].
    exact (proj2 (Hfiles "pts_bbox" "out/pts_bbox/results_once.json"
                    (or_introl eq_refl))).
Defined.

Lemma evaluate_republishes_witness :
  exists fs1,
    format_results one_frame_dataset (ResultList demo_modal_results)
                   (Some "out") "tmp" empty_fs
    = (Ok (PathDict [("pts_bbox", "out/pts_bbox/results_once.json")], None),
       fs1) /\
    collect_gt_annos one_frame_dataset
    = Ok [mkAnnos ["Car"; "Tram"] [demo_box; demo_box2]] /\
    exists ap_dict,
      evaluate demo_once_eval one_frame_dataset (ResultList demo_modal_results)
               (Some "out") "tmp" empty_fs = (Ok ap_dict, fs1) /\
      dict_mem ap_dict "pts_bbox/AP_Car/overall" = true /\
      forall key v, In (key, v) ap_dict ->
        exists n : Z, v = IZR n / 10000.
Proof.
  eexists. split; [reflexivity|]. split; [reflexivity|].
  destruct (evaluate_republishes demo_once_eval one_frame_dataset
              (ResultList demo_modal_results) (Some "out") "tmp" empty_fs
              _ _ _ _ eq_refl eq_refl) as (_ & _ & Hdict & Hround).
  destruct (Hdict _ eq_refl) as [_ Hrun].
  destruct Hrun as (ap_dict & Hcall & Hkeys & Hmem).
  { intros name file _. unfold demo_once_eval. eauto. }
  exists ap_dict. split; [exact Hcall|]. split.
  - apply (Hmem "pts_bbox" "out/pts_bbox/results_once.json" "AP"
             [("AP_Car/overall", 0.03125); ("AP_Bus/overall", 0.5)]
             "AP_Car/overall" 0.03125);
      [now left|reflexivity|now left].
  - intros key v Hin.
    destruct (Hkeys key v Hin) as (_ & _ & _ & _ & _ & x & _ & _ & _ & _ & ->).
    destruct (Hround x) as [n [Hn _]]. exists n. exact Hn.
Defined.

(** * Further properties of the methods *)

(** ** What annotation access keeps *)

Lemma nth_error_list_set_other {A : Type} (l : list A) (n j : nat) (v : A) :
  j <> n -> nth_error (list_set l n v) j = nth_error l j.
Proof.
  revert n j. induction l as [|y t IH]; intros [|n] [|j] H; cbn; auto;
    try contradiction; try (apply IH; congruence).
Qed.

Lemma touches_only_boxes_at_refl (self : OnceDataset) (index : Z) :
  touches_only_boxes_at self index self.
Proof.
  unfold touches_only_boxes_at. repeat split; auto.
  intros info H. exists info. split; [exact H|]. repeat split.
Qed.

Lemma store_boxes_touches (self : OnceDataset) (index : Z) (boxes : list Box) :
  touches_only_boxes_at self index (store_boxes self index boxes).
Proof.
  destruct (store_boxes_flags self index boxes) as (H1 & H2 & H3 & H4 & H5).
  unfold touches_only_boxes_at.
  repeat (split; [assumption|]).
  unfold store_boxes.
  destruct (nth_error (data_infos self) (py_position (data_infos self) index))
    as [info0|] eqn:Hpos; cbn [data_infos].
  - split; [apply length_list_set|]. split.
    + intros j Hj. now apply nth_error_list_set_other.
    + intros info Hget.
      pose proof (py_getitem_position _ _ _ Hget) as Hp.
      rewrite Hp in Hpos. injection Hpos as <-.
      exists (with_boxes info boxes).
      split; [now apply py_getitem_list_set with (x := info)|].
      unfold same_but_boxes, with_boxes.
      destruct (annos info) eqn:E; cbn; rewrite ?E; repeat split.
  - split; [reflexivity|]. split; [reflexivity|].
    intros info Hget. exists info. split; [exact Hget|]. repeat split.
Qed.

Section KeptByAnnotationAccess.

Variable convert_other : BoxMode -> list Box -> list Box.
Variable pre_pipeline : OnceDataset -> InputDict -> InputDict.
Variable pipeline : InputDict -> option Example.

Lemma get_ann_info_touches (self : OnceDataset) (index : Z)
  (out : outcome (option AnnInfo)) (self' : OnceDataset) :
  get_ann_info convert_other self index = (out, self') ->
  touches_only_boxes_at self index self' /\
  ((forall res, out <> Ok (Some res)) -> self' = self).
Proof.
  unfold get_ann_info.
  destruct (py_getitem (data_infos self) index) as [info|].
  - destruct (annos info) as [an|].
    + destruct (assign_rotated Tr_lidar_to_standard (annos_boxes_3d an))
        as [rotated|e].
      * intros H. injection H as <- <-. split; [apply store_boxes_touches|].
        intros Hno. now elim (Hno _ eq_refl).
      * intros H. injection H as <- <-.
        split; [apply touches_only_boxes_at_refl|reflexivity].
    + intros H. injection H as <- <-.
      split; [apply touches_only_boxes_at_refl|reflexivity].
  - intros H. injection H as <- <-.
    split; [apply touches_only_boxes_at_refl|reflexivity].
Qed.

(** X1: whatever [get_ann_info] returns, the dataset it leaves differs from
    the one it found at most in the box array of the frame at [index]; when
    it returns [None] the dataset is the one it found. *)
Theorem get_ann_info_frame (self : OnceDataset) (index : Z)
  (out : outcome (option AnnInfo)) (self' : OnceDataset) :
  get_ann_info convert_other self index = (out, self') ->
  touches_only_boxes_at self index self' /\
  (out = Ok None -> self' = self).
Proof.
  intros H. destruct (get_ann_info_touches self index out self' H) as [Ht Hs].
  split; [exact Ht|]. intros ->. apply Hs. discriminate.
Qed.

(** X2: [prepare_train_data] (through [get_data_info]) likewise changes at
    most the box array of the frame at [index], whatever it returns, and in
    test mode [get_data_info] leaves the dataset as it is. *)
Theorem prepare_train_data_frame (self : OnceDataset) (index : Z) :
  touches_only_boxes_at self index
    (snd (prepare_train_data convert_other pre_pipeline pipeline self index)) /\
  touches_only_boxes_at self index
    (snd (get_data_info convert_other self index)) /\
  (test_mode self = true ->
   snd (get_data_info convert_other self index) = self).
Proof.
  assert (Hinfo : touches_only_boxes_at self index
                    (snd (get_data_info convert_other self index)) /\
                  (test_mode self = true ->
                   snd (get_data_info convert_other self index) = self)).
  { unfold get_data_info.
    destruct (py_getitem (data_infos self) index) as [info|];
      [|split; [apply touches_only_boxes_at_refl|reflexivity]].
    destruct (mapM (camera_entry self info) camera_list) as [entries|e];
      [|split; [apply touches_only_boxes_at_refl|reflexivity]].
    destruct (test_mode self); cbn [negb];
      [split; [apply touches_only_boxes_at_refl|reflexivity]|].
    split; [|discriminate].
    destruct (get_ann_info convert_other self index) as [out s] eqn:Hann.
    destruct (get_ann_info_touches self index out s Hann) as [Ht _].
    destruct out; exact Ht. }
  split; [|exact Hinfo]. destruct Hinfo as [Hinfo _].
  unfold prepare_train_data.
  destruct (get_data_info convert_other self index) as [[d|e] s];
    cbn [snd] in *; [|exact Hinfo].
  destruct (ann_info d) as [[a|]|]; try exact Hinfo.
  destruct (filter_empty_gt s && _)%bool; exact Hinfo.
Qed.

(** X3: [get_ann_info] raises [IndexError] exactly when the index lies
    outside [-n, n) for a dataset of [n] frames, and a negative index within
    the range behaves as the index [n] higher: same value, same dataset
    left behind. *)
Theorem get_ann_info_index (self : OnceDataset) (index : Z) :
  let n := Z.of_nat (List.length (data_infos self)) in
  (fst (get_ann_info convert_other self index) = Raise IndexError <->
   ~ (- n <= index < n)%Z) /\
  ((- n <= index < 0)%Z ->
   get_ann_info convert_other self index
   = get_ann_info convert_other self (index + n)).
Proof.
  cbv zeta. split.
  - unfold get_ann_info, py_getitem.
    destruct (Z.leb_spec 0 index) as [Hpos|Hneg].
    + destruct (nth_error (data_infos self) (Z.to_nat index)) as [info|] eqn:E.
      * assert (Hlt : (Z.to_nat index < List.length (data_infos self))%nat)
          by (apply nth_error_Some; congruence).
        split; [|intros Hn; elim Hn; lia].
        destruct (annos info) as [an|]; [|discriminate].
        destruct (annos_boxes_3d an); cbn; discriminate.
      * apply nth_error_None in E. split; [intros _; lia|reflexivity].
    + destruct (Z.leb_spec (- Z.of_nat (List.length (data_infos self))) index)
        as [Hin|Hout].
      * destruct (nth_error (data_infos self)
                    (Z.to_nat (Z.of_nat (List.length (data_infos self)) + index)))
          as [info|] eqn:E.
        -- split; [|intros Hn; elim Hn; lia].
           destruct (annos info) as [an|]; [|discriminate].
           destruct (annos_boxes_3d an); cbn; discriminate.
        -- apply nth_error_None in E. lia.
      * split; [intros _; lia|reflexivity].
  - intros Hrange.
    assert (Hget : py_getitem (data_infos self) index
                   = py_getitem (data_infos self)
                       (index + Z.of_nat (List.length (data_infos self)))).
    { unfold py_getitem.
      destruct (Z.leb_spec 0 index); [lia|].
      destruct (Z.leb_spec (- Z.of_nat (List.length (data_infos self))) index);
        [|lia].
      destruct (Z.leb_spec 0
                  (index + Z.of_nat (List.length (data_infos self)))); [|lia].
      f_equal. lia. }
    assert (Hpos : py_position (data_infos self) index
                   = py_position (data_infos self)
                       (index + Z.of_nat (List.length (data_infos self)))).
    { unfold py_position.
      destruct (Z.leb_spec 0 index); [lia|].
      destruct (Z.leb_spec 0
                  (index + Z.of_nat (List.length (data_infos self)))); [|lia].
      f_equal. lia. }
    unfold get_ann_info, store_boxes. rewrite Hget, Hpos. reflexivity.
Qed.

End KeptByAnnotationAccess.

(** ** Repeated and reversed conversions *)

Lemma ground_truth_four_times (p : Box) :
  Nat.iter 4 spec_ground_truth_box p = set_yaw p (yaw p + 2 * PI).
Proof.
  change (Nat.iter 4 spec_ground_truth_box p)
    with (spec_ground_truth_box
            (spec_ground_truth_box
               (spec_ground_truth_box (spec_ground_truth_box p)))).
  rewrite !spec_ground_truth_box_explicit.
  open_box p. unfold set_yaw. cbn. real_components.
Qed.

Section RepeatedAccess.

Variable convert_other : BoxMode -> list Box -> list Box.

Lemma stored_boxes_after (n : nat) :
  forall (self : OnceDataset) (index : Z) (info : Info) (an : Annos)
         (b : Box) (rest : list Box),
    py_getitem (data_infos self) index = Some info ->
    annos info = Some an ->
    annos_boxes_3d an = b :: rest ->
    stored_boxes (after_get_ann_info convert_other n self index) index
    = Some (map (Nat.iter n spec_ground_truth_box) (b :: rest)).
Proof.
  induction n as [|k IH]; intros self index info an b rest Hget Han Hb.
  - cbn [after_get_ann_info]. unfold stored_boxes.
    rewrite Hget, Han. cbn [option_map]. rewrite Hb. f_equal. symmetry.
    apply map_id_ext. reflexivity.
  - cbn [after_get_ann_info].
    rewrite (get_ann_info_annotated convert_other self index info an b rest
               Hget Han Hb). cbn [snd].
    destruct (store_boxes_lookup self index info an
                (map spec_ground_truth_box (b :: rest)) Hget Han) as [Hs Ha].
    rewrite (IH _ index _ _ (spec_ground_truth_box b)
               (map spec_ground_truth_box rest) Hs Ha eq_refl).
    f_equal. change (spec_ground_truth_box b :: map spec_ground_truth_box rest)
      with (map spec_ground_truth_box (b :: rest)).
    rewrite map_map. apply map_ext. intros p.
    symmetry. apply Nat.iter_succ_r.
Qed.

(** X4: on an annotated frame with a box, [n] calls of [get_ann_info] in a
    row leave every stored box converted [n] times; after four calls each
    centre is back where it was and each yaw has grown by [2 pi]. *)
Theorem get_ann_info_four_calls (self : OnceDataset) (index : Z) (info : Info)
  (an : Annos) (b : Box) (rest : list Box) :
  py_getitem (data_infos self) index = Some info ->
  annos info = Some an ->
  annos_boxes_3d an = b :: rest ->
  (forall n,
     stored_boxes (after_get_ann_info convert_other n self index) index
     = Some (map (Nat.iter n spec_ground_truth_box) (b :: rest))) /\
  stored_boxes (after_get_ann_info convert_other 4 self index) index
  = Some (map (fun p => set_yaw p (yaw p + 2 * PI)) (b :: rest)) /\
  stored_boxes (after_get_ann_info convert_other 4 self index) index
  <> stored_boxes self index.
Proof.
  intros Hget Han Hb.
  assert (H4 : stored_boxes (after_get_ann_info convert_other 4 self index) index
               = Some (map (fun p => set_yaw p (yaw p + 2 * PI)) (b :: rest))).
  { rewrite (stored_boxes_after 4 self index info an b rest Hget Han Hb).
    f_equal. apply map_ext. apply ground_truth_four_times. }
  split; [intros n; now apply stored_boxes_after with info an|].
  split; [exact H4|].
  rewrite H4. unfold stored_boxes. rewrite Hget, Han. cbn. rewrite Hb.
  cbn [map]. intros E. injection E as E _.
  apply (f_equal yaw) in E. cbn in E. pose proof PI_RGT_0. lra.
Qed.

End RepeatedAccess.

(** X5: a predicted box array sent to the dataset's convention by
    [_format_boxes_3d] and read back as [get_ann_info] reads ground truth
    (rotation, yaw offset, box construction at origin [(0.5, 0.5, 0.5)]) is
    the array one started from. *)
Theorem prediction_then_ground_truth_restores (b : Box) (rest : list Box) :
  prediction_then_boxed_ground_truth (b :: rest) = Ok (b :: rest).
Proof.
  unfold prediction_then_boxed_ground_truth.
  rewrite format_boxes_3d_cons. cbn [bind map].
  rewrite assign_rotated_cons. cbn [bind].
  rewrite ground_truth_array.
  change (spec_prediction_box b :: map spec_prediction_box rest)
    with (map spec_prediction_box (b :: rest)).
  rewrite box_of_ground_truth, map_map. f_equal.
  apply map_id_ext. intros p.
  rewrite spec_ground_truth_box_explicit, !spec_prediction_box_explicit.
  open_box p. unfold set_cz. cbn. real_components.
Qed.

(** X6: the two centre maps are transposes of one another and keep every
    dot product, hence every distance between centres, and both keep the
    z coordinate. *)
Theorem center_maps_are_rotations :
  transpose3 Tr_lidar_to_standard = Tr_standard_to_lidar /\
  (forall u v, dot3 (matvec3 Tr_lidar_to_standard u)
                    (matvec3 Tr_lidar_to_standard v) = dot3 u v) /\
  (forall u v, dot3 (matvec3 Tr_standard_to_lidar u)
                    (matvec3 Tr_standard_to_lidar v) = dot3 u v) /\
  (forall x y z, snd (matvec3 Tr_lidar_to_standard (x, y, z)) = z /\
                 snd (matvec3 Tr_standard_to_lidar (x, y, z)) = z).
Proof.
  split; [reflexivity|]. split; [|split].
  - intros [[x y] z] [[x' y'] z'].
    rewrite !matvec3_lidar_to_standard. unfold dot3. lra.
  - intros [[x y] z] [[x' y'] z'].
    rewrite !matvec3_standard_to_lidar. unfold dot3. lra.
  - intros x y z.
    now rewrite matvec3_lidar_to_standard, matvec3_standard_to_lidar.
Qed.

(** ** Labels and class names *)

Lemma py_getitem_nat {A : Type} (l : list A) (i : nat) :
  py_getitem l (Z.of_nat i) = nth_error l i.
Proof.
  unfold py_getitem. destruct (Z.leb_spec 0 (Z.of_nat i)); [|lia].
  now rewrite Nat2Z.id.
Qed.

Lemma py_getitem_range {A : Type} (l : list A) (i : Z) :
  let n := Z.of_nat (List.length l) in
  ((- n <= i < n)%Z -> exists x, py_getitem l i = Some x) /\
  (~ (- n <= i < n)%Z -> py_getitem l i = None).
Proof.
  cbv zeta. unfold py_getitem. split.
  - intros Hr. destruct (Z.leb_spec 0 i).
    + destruct (nth_error l (Z.to_nat i)) eqn:E; [eauto|].
      apply nth_error_None in E. lia.
    + destruct (Z.leb_spec (- Z.of_nat (List.length l)) i); [|lia].
      destruct (nth_error l (Z.to_nat (Z.of_nat (List.length l) + i))) eqn:E;
        [eauto|].
      apply nth_error_None in E. lia.
  - intros Hr. destruct (Z.leb_spec 0 i).
    + apply nth_error_None. lia.
    + destruct (Z.leb_spec (- Z.of_nat (List.length l)) i); [lia|reflexivity].
Qed.

Lemma names_of_labels_cases (classes : list string) (labels : list Z) :
  let n := Z.of_nat (List.length classes) in
  (Forall (fun l => (1 - n <= l <= n)%Z) labels /\
   exists names, names_of_labels classes labels = Ok names /\
                 List.length names = List.length labels) \/
  (~ Forall (fun l => (1 - n <= l <= n)%Z) labels /\
   names_of_labels classes labels = Raise IndexError).
Proof.
  cbv zeta. unfold names_of_labels.
  induction labels as [|l t IH]; cbn [mapM].
  - left. split; [constructor|]. exists []. now split.
  - destruct (py_getitem_range classes (l - 1)%Z) as [Hin Hout].
    destruct (Z_le_dec (1 - Z.of_nat (List.length classes)) l) as [H1|H1].
    + destruct (Z_le_dec l (Z.of_nat (List.length classes))) as [H2|H2].
      * destruct Hin as [c Hc]; [lia|]. rewrite Hc. cbn [bind].
        destruct IH as [[HF [names [Hn Hlen]]]|[HF Hr]].
        -- left. split; [constructor; [lia|exact HF]|].
           rewrite Hn. cbn [bind]. exists (c :: names).
           split; [reflexivity|]. cbn. now rewrite Hlen.
        -- right. split; [intros H; inversion H; contradiction|].
           now rewrite Hr.
      * right. split; [intros H; inversion H; lia|].
        rewrite Hout; [reflexivity|lia].
    + right. split; [intros H; inversion H; lia|].
      rewrite Hout; [reflexivity|lia].
Qed.

(** X7: [np.array(CLASSES)[pred_labels - 1]] yields a name for every label
    exactly when all labels lie in [1 - n, n] for [n] classes, and raises
    [IndexError] otherwise. *)
Theorem names_of_labels_bounds (classes : list string) (labels : list Z) :
  let n := Z.of_nat (List.length classes) in
  ((exists names, names_of_labels classes labels = Ok names /\
                  List.length names = List.length labels) <->
   Forall (fun l => (1 - n <= l <= n)%Z) labels) /\
  (names_of_labels classes labels = Raise IndexError <->
   ~ Forall (fun l => (1 - n <= l <= n)%Z) labels).
Proof.
  cbv zeta.
  destruct (names_of_labels_cases classes labels)
    as [[HF [names [Hn Hlen]]]|[HF Hr]].
  - split; split; intros H; auto.
    + exists names. now split.
    + rewrite Hn in H. discriminate.
    + contradiction.
  - split; split; intros H; auto.
    + destruct H as [names [Hn _]]. rewrite Hr in Hn. discriminate.
    + contradiction.
Qed.

(** X8: the label [get_ann_info] gives a name lies in [-1, n); for a name of
    the class list the formatter's lookup gives the name back only from the
    label plus one, and in a class list without repetition the label of the
    [i]-th name is [i]. *)
Theorem label_of_round_trip (classes : list string) (cat : string) :
  (-1 <= label_of classes cat < Z.of_nat (List.length classes))%Z /\
  (In cat classes ->
   names_of_labels classes [(label_of classes cat + 1)%Z] = Ok [cat] /\
   py_getitem classes (label_of classes cat) = Some cat) /\
  (forall i, NoDup classes -> nth_error classes i = Some cat ->
             label_of classes cat = Z.of_nat i).
Proof.
  split; [|split].
  - unfold label_of. destruct (tuple_index classes cat) as [i|] eqn:E; [|lia].
    apply tuple_index_Some in E. destruct E as [E _].
    assert (i < List.length classes)%nat by (apply nth_error_Some; congruence).
    lia.
  - intros Hin. destruct (label_of_member _ _ Hin) as [i [Hl [Hn _]]].
    rewrite Hl. unfold names_of_labels. cbn [mapM].
    rewrite Z.add_simpl_r, py_getitem_nat, Hn. now split.
  - intros i Hnd Hi.
    assert (Hin : In cat classes) by (eapply nth_error_In; eauto).
    destruct (label_of_member _ _ Hin) as [j [Hl [Hn _]]].
    rewrite Hl. f_equal.
    apply (proj1 (NoDup_nth_error classes) Hnd).
    + apply nth_error_Some. congruence.
    + congruence.
Qed.

(** ** Formatted records and result files *)

Lemma skipn_nth_error {A : Type} (l : list A) (n : nat) (x : A) :
  nth_error l n = Some x -> skipn n l = x :: skipn (S n) l.
Proof.
  revert n. induction l as [|y t IH]; intros [|n]; cbn; try discriminate.
  - intros H. now injection H as ->.
  - intros H. rewrite (IH n H). reflexivity.
Qed.

Lemma format_frame_id (self : OnceDataset) (idx : nat) (result : Result)
  (record : PredDict) :
  format_frame self idx result = Ok record ->
  exists info, nth_error (data_infos self) idx = Some info /\
               pred_frame_id record = frame_id info.
Proof.
  unfold format_frame.
  destruct (nth_error (data_infos self) idx) as [info|]; [|discriminate].
  destruct (as_detection result) as [d|]; cbn [bind]; [|discriminate].
  destruct (_format_boxes_3d (boxes_3d d)) as [boxes|]; cbn [bind];
    [|discriminate].
  destruct (Nat.eqb (List.length (scores_3d d)) 0).
  - intros H. injection H as <-. eauto.
  - destruct (names_of_labels (CLASSES self) (labels_3d d)); cbn [bind];
      [|discriminate].
    intros H. injection H as <-. eauto.
Qed.

Lemma format_frames_ids (self : OnceDataset) (results : list Result) :
  forall (idx : nat) (records : list PredDict),
    format_frames self idx results = Ok records ->
    List.length records = List.length results /\
    map pred_frame_id records
    = map frame_id (firstn (List.length results)
                           (skipn idx (data_infos self))) /\
    (List.length results <= List.length (skipn idx (data_infos self)))%nat.
Proof.
  induction results as [|r rest IH]; intros idx records; cbn [format_frames].
  - intros H. injection H as <-. cbn. repeat split. lia.
  - destruct (format_frame self idx r) as [record|] eqn:Hr; cbn [bind];
      [|discriminate].
    destruct (format_frames self (S idx) rest) as [more|] eqn:Hm; cbn [bind];
      [|discriminate].
    intros H. injection H as <-.
    destruct (format_frame_id _ _ _ _ Hr) as [info [Hi Hid]].
    destruct (IH _ _ Hm) as (Hlen & Hids & Hle).
    rewrite (skipn_nth_error _ _ _ Hi). cbn [List.length map firstn].
    rewrite Hlen, Hid, Hids. repeat split. apply le_n_S, Hle.
Qed.

(** X9: when [_format_results] returns, the file it names holds one record
    per result, and the records carry, in order, the identifiers of the
    first frames of the dataset; a results list shorter than the dataset is
    formatted against that prefix of the frames. *)
Theorem format_results_records (self : OnceDataset) (results : list Result)
  (prefix : string) (fs : FileSystem) (p : string) (fs' : FileSystem) :
  _format_results self results (Some prefix) fs = (Ok p, fs') ->
  exists records,
    dict_get (fs_files fs') p = Some records /\
    List.length records = List.length results /\
    map pred_frame_id records
    = map frame_id (firstn (List.length results) (data_infos self)) /\
    (List.length results <= List.length (data_infos self))%nat.
Proof.
  intros H.
  destruct (format_results_inner _ _ _ _ _ _ H) as (_ & records & Hf & _ & Hg).
  destruct (format_frames_ids _ _ _ _ Hf) as (Hlen & Hids & Hle).
  exists records. cbn [skipn] in *. auto.
Qed.

Lemma mkdir_or_exist_keeps (dir_name : string) (fs : FileSystem) :
  fs_files (mkdir_or_exist dir_name fs) = fs_files fs /\
  forall d, In d (fs_dirs fs) -> In d (fs_dirs (mkdir_or_exist dir_name fs)).
Proof.
  unfold mkdir_or_exist.
  destruct (String.eqb dir_name ""); [auto|].
  destruct (existsb (String.eqb dir_name) (fs_dirs fs)); [auto|].
  cbn. split; [reflexivity|]. intros d Hd. apply in_or_app. now left.
Qed.

Lemma format_results_inner_grows (self : OnceDataset) (results : list Result)
  (prefix : option string) (fs : FileSystem) (out : outcome string)
  (fs' : FileSystem) :
  _format_results self results prefix fs = (out, fs') ->
  (forall path, dict_mem (fs_files fs) path = true ->
                dict_mem (fs_files fs') path = true) /\
  (forall d, In d (fs_dirs fs) -> In d (fs_dirs fs')) /\
  ((exists e, out = Raise e) -> fs' = fs).
Proof.
  intros H. split; [intros path; eapply format_results_inner_keeps; eauto|].
  unfold _format_results in H.
  destruct (format_frames self 0 results) as [records|].
  - destruct prefix as [prefix|]; injection H as <- <-.
    + split; [|intros [e He]; discriminate].
      intros d Hd. cbn [fs_dirs dump]. now apply mkdir_or_exist_keeps.
    + auto.
  - injection H as <- <-. auto.
Qed.

Lemma format_modalities_grows (self : OnceDataset) (results : list Result)
  (prefix : string) (names : list string) :
  forall (acc : dict string) (fs : FileSystem) (out : outcome (dict string))
         (fs' : FileSystem),
    format_modalities self results prefix names acc fs = (out, fs') ->
    (forall path, dict_mem (fs_files fs) path = true ->
                  dict_mem (fs_files fs') path = true) /\
    (forall d, In d (fs_dirs fs) -> In d (fs_dirs fs')).
Proof.
  induction names as [|name rest IH]; intros acc fs out fs';
    cbn [format_modalities].
  - intros H. injection H as <- <-. auto.
  - destruct (mapM (fun o => result_getitem o name) results) as [results_|];
      [|intros H; injection H as <- <-; auto].
    destruct (_format_results self (map Single results_)
                (Some (path_join prefix [name])) fs) as [[p|e] fs1] eqn:Hf.
    + intros H. destruct (IH _ _ _ _ H) as [H1 H2].
      destruct (format_results_inner_grows _ _ _ _ _ _ Hf) as (G1 & G2 & _).
      split; auto.
    + intros H. injection H as <- <-.
      destruct (format_results_inner_grows _ _ _ _ _ _ Hf) as (G1 & G2 & _).
      split; auto.
Qed.

(** X10: [format_results] never removes anything: every file and directory
    present before the call is present after it, whatever the outcome; and
    when the first result has no modality key and the call raises, no file
    has been written. *)
Theorem format_results_never_deletes (self : OnceDataset) (results : PyResults)
  (jsonfile_prefix : option string) (tmp_name : string) (fs : FileSystem)
  (out : outcome (ResultFiles * option string)) (fs' : FileSystem) :
  format_results self results jsonfile_prefix tmp_name fs = (out, fs') ->
  (forall path, dict_mem (fs_files fs) path = true ->
                dict_mem (fs_files fs') path = true) /\
  (forall d, In d (fs_dirs fs) -> In d (fs_dirs fs')) /\
  (forall r0 rest e,
     results = ResultList (r0 :: rest) ->
     result_mem r0 "pts_bbox" = false -> result_mem r0 "img_bbox" = false ->
     out = Raise e -> fs_files fs' = fs_files fs).
Proof.
  destruct results as [l|]; cbn [format_results];
    [|intros H; injection H as <- <-; split; [auto|split; [auto|]];
      intros; discriminate].
  destruct (negb (Nat.eqb (List.length l) (len_dataset self)));
    [intros H; injection H as <- <-; split; [auto|split; [auto|]];
     intros; reflexivity|].
  assert (Hfs0 : forall fs0 prefix tmp,
            (prefix, tmp, fs0)
            = match jsonfile_prefix with
              | Some p => (p, None, fs)
              | None => (path_join tmp_name ["results"], Some tmp_name,
                         mkFS (fs_dirs fs ++ [tmp_name]) (fs_files fs))
              end ->
            fs_files fs0 = fs_files fs /\
            forall d, In d (fs_dirs fs) -> In d (fs_dirs fs0)).
  { intros fs0 prefix tmp E. destruct jsonfile_prefix; injection E as -> -> ->.
    - auto.
    - cbn. split; [reflexivity|]. intros d Hd. apply in_or_app. now left. }
  destruct (match jsonfile_prefix with
            | Some p => (p, None, fs)
            | None => (path_join tmp_name ["results"], Some tmp_name,
                       mkFS (fs_dirs fs ++ [tmp_name]) (fs_files fs))
            end) as [[prefix tmp] fs0].
  destruct (Hfs0 fs0 prefix tmp eq_refl) as [Hfiles Hdirs]. clear Hfs0.
  destruct l as [|r0 rest].
  - intros H. injection H as <- <-. rewrite Hfiles.
    split; [auto|split; [auto|]]. intros; discriminate.
  - destruct (result_mem r0 "pts_bbox" || result_mem r0 "img_bbox")%bool eqn:Hm;
      cbn [negb].
    + destruct (format_modalities self (r0 :: rest) prefix (result_keys r0)
                  [] fs0) as [[d|e] fs1] eqn:Hd;
        intros H; injection H as <- <-;
        destruct (format_modalities_grows _ _ _ _ _ _ _ _ Hd) as [G1 G2];
        (split; [intros path Hp; apply G1; now rewrite Hfiles|]);
        (split; [auto|]);
        intros r0' rest' e' E H1 H2; injection E as <- <-;
        rewrite H1, H2 in Hm; discriminate.
    + destruct (_format_results self (r0 :: rest) (Some prefix) fs0)
        as [[p|e] fs1] eqn:Hf;
        intros H; injection H as <- <-;
        destruct (format_results_inner_grows _ _ _ _ _ _ Hf) as (G1 & G2 & G3);
        (split; [intros path Hp; apply G1; now rewrite Hfiles|]);
        (split; [auto|]).
      * intros; discriminate.
      * intros _ _ _ _ _ _ _. rewrite (G3 (ex_intro _ e eq_refl)). exact Hfiles.
Qed.

(** ** When formatting succeeds and when it stops *)




Lemma mapM_missing_key (name : string) (results : list Result) :
  Forall (fun r => exists m, r = Multi m) results ->
  Exists (fun r => exists m, r = Multi m /\ dict_get m name = None) results ->
  mapM (fun out => result_getitem out name) results = Raise (KeyError name).
Proof.
  induction results as [|r rest IH]; intros HF HE; [inversion HE|].
  inversion HF as [|? ? [m ->] HF']; subst. cbn [mapM result_getitem].
  destruct (dict_get m name) as [d|] eqn:Hd; cbn [bind]; [|reflexivity].
  inversion HE as [? ? [m' [E Hnone]]|? ? HE']; subst.
  - injection E as <-. congruence.
  - now rewrite (IH HF' HE').
Qed.

(** X12: when the results are modality dicts and some result lacks the
    first key of the first one, [format_results] with a prefix raises
    [KeyError] of that key and the file system is as it was. *)
Theorem format_results_missing_modality (self : OnceDataset) (name : string)
  (d0 : Detection) (m0 : dict Detection) (rest : list Result)
  (prefix tmp_name : string) (fs : FileSystem) :
  List.length (Multi ((name, d0) :: m0) :: rest) = len_dataset self ->
  result_mem (Multi ((name, d0) :: m0)) "pts_bbox" = true \/
  result_mem (Multi ((name, d0) :: m0)) "img_bbox" = true ->
  Forall (fun r => exists m, r = Multi m) rest ->
  Exists (fun r => exists m, r = Multi m /\ dict_get m name = None) rest ->
  format_results self (ResultList (Multi ((name, d0) :: m0) :: rest))
                 (Some prefix) tmp_name fs
  = (Raise (KeyError name), fs).
Proof.
  intros Hlen Hkey HF HE. cbn [format_results].
  rewrite Hlen, Nat.eqb_refl. cbn [negb].
  assert (Hm : (result_mem (Multi ((name, d0) :: m0)) "pts_bbox"
                || result_mem (Multi ((name, d0) :: m0)) "img_bbox")%bool = true)
    by (destruct Hkey as [-> | ->]; [reflexivity|apply orb_true_r]).
  rewrite Hm. cbn [negb result_keys dict_keys map fst format_modalities mapM
                   result_getitem dict_get].
  rewrite String.eqb_refl. cbn [bind].
  now rewrite (mapM_missing_key name rest HF HE).
Qed.

(** ** Ground truth for the evaluation *)

Lemma collect_gt_annos_cases (self : OnceDataset) :
  (Forall (fun info => annos info <> None) (data_infos self) /\
   exists gt, collect_gt_annos self = Ok gt) \/
  (Exists (fun info => annos info = None) (data_infos self) /\
   collect_gt_annos self = Raise (KeyError "annos")).
Proof.
  unfold collect_gt_annos.
  induction (data_infos self) as [|info infos IH]; cbn [mapM].
  - left. split; [constructor|eauto].
  - destruct (annos info) as [an|] eqn:Han; cbn [bind].
    + destruct IH as [[HF [gt Hgt]]|[HE Hr]].
      * left. split; [constructor; [rewrite Han; discriminate|exact HF]|].
        rewrite Hgt. cbn [bind]. eauto.
      * right. split; [now apply Exists_cons_tl|]. now rewrite Hr.
    + right. split; [now apply Exists_cons_hd|reflexivity].
Qed.

Lemma filter_all {A : Type} (f : A -> bool) (l : list A) :
  filter f l = l <-> Forall (fun x => f x = true) l.
Proof.
  induction l as [|x t IH]; cbn.
  - split; [constructor|reflexivity].
  - destruct (f x) eqn:E.
    + split.
      * intros H. injection H as H. constructor; [exact E|now apply IH].
      * intros H. inversion H; subst. f_equal. now apply IH.
    + split.
      * intros H. pose proof (filter_length_le f t) as Hle.
        rewrite H in Hle. cbn in Hle. lia.
      * intros H. inversion H; subst. congruence.
Qed.

Lemma map_list_set {A B : Type} (f : A -> B) (l : list A) (n : nat) (v : A) :
  map f (list_set l n v) = list_set (map f l) n (f v).
Proof.
  revert n. induction l as [|y t IH]; intros [|n]; cbn; auto.
  now rewrite IH.
Qed.

Lemma list_set_same {A : Type} (l : list A) (n : nat) (x : A) :
  nth_error l n = Some x -> list_set l n x = l.
Proof.
  revert n. induction l as [|y t IH]; intros [|n]; cbn; try discriminate.
  - intros H. now injection H as ->.
  - intros H. now rewrite IH.
Qed.

Lemma filter_length_map {A : Type} (f : A -> bool) (l : list A) :
  forall l', map f l = map f l' ->
             List.length (filter f l) = List.length (filter f l').
Proof.
  induction l as [|x t IH]; intros [|y t']; cbn; try discriminate; auto.
  intros H. injection H as Hxy Ht. rewrite Hxy.
  destruct (f y); cbn; auto.
Qed.

Section GroundTruthSelection.

Variable convert_other : BoxMode -> list Box -> list Box.
Variable once_eval :
  FileSystem -> list Annos -> string -> list string -> option (list string) ->
  outcome (string * dict R).

Lemma get_ann_info_keeps_annotated (self : OnceDataset) (index : Z) :
  map _check_annos (data_infos (snd (get_ann_info convert_other self index)))
  = map _check_annos (data_infos self).
Proof.
  unfold get_ann_info.
  destruct (py_getitem (data_infos self) index) as [info|] eqn:Hget;
    [|reflexivity].
  destruct (annos info) as [an|] eqn:Han; [|reflexivity].
  destruct (assign_rotated Tr_lidar_to_standard (annos_boxes_3d an))
    as [rotated|]; [|reflexivity].
  cbn [snd]. unfold store_boxes.
  pose proof (py_getitem_position _ _ _ Hget) as Hpos. rewrite Hpos.
  cbn [data_infos]. rewrite map_list_set.
  apply list_set_same. rewrite nth_error_map, Hpos. cbn.
  f_equal. unfold _check_annos, with_boxes. now rewrite Han.
Qed.

(** X13: [filtered_data_infos] holds exactly the frames with annotations;
    the ground truth of [evaluate] can be collected exactly when it is the
    whole of [data_infos]; and [get_ann_info] never changes which frames
    are annotated, so the filtered list keeps its length. *)
Theorem filtered_data_infos_spec (self : OnceDataset) :
  (forall info, In info (filtered_data_infos self) <->
                In info (data_infos self) /\ annos info <> None) /\
  ((exists gt, collect_gt_annos self = Ok gt) <->
   filtered_data_infos self = data_infos self) /\
  (forall index,
     let self' := snd (get_ann_info convert_other self index) in
     map _check_annos (data_infos self') = map _check_annos (data_infos self) /\
     List.length (filtered_data_infos self')
     = List.length (filtered_data_infos self)).
Proof.
  split; [|split].
  - intros info. unfold filtered_data_infos. rewrite filter_In.
    unfold _check_annos. destruct (annos info); intuition congruence.
  - unfold filtered_data_infos. rewrite filter_all.
    destruct (collect_gt_annos_cases self) as [[HF [gt Hgt]]|[HE Hr]].
    + split; [intros _|eauto].
      revert HF. apply Forall_impl. intros info H. unfold _check_annos.
      destruct (annos info); [reflexivity|now elim H].
    + split.
      * intros [gt Hgt]. rewrite Hr in Hgt. discriminate.
      * intros HF. apply Exists_exists in HE. destruct HE as [info [Hin Hn]].
        rewrite Forall_forall in HF. specialize (HF info Hin).
        unfold _check_annos in HF. rewrite Hn in HF. discriminate.
  - intros index. cbv zeta.
    pose proof (get_ann_info_keeps_annotated self index) as H.
    split; [exact H|]. unfold filtered_data_infos.
    now apply filter_length_map.
Qed.

(** X14: with a prefix given, when some frame has no annotations,
    [evaluate] formats and writes the results first and then raises
    [KeyError] of ['annos']: no temporary directory is involved, and the
    file system is left as [format_results] left it, result files
    included. *)
Theorem evaluate_needs_annotations (self : OnceDataset) (results : PyResults)
  (prefix tmp_name : string) (fs : FileSystem)
  (result_files : ResultFiles) (tmp_dir : option string) (fs1 : FileSystem)
  (info : Info) :
  format_results self results (Some prefix) tmp_name fs
  = (Ok (result_files, tmp_dir), fs1) ->
  In info (data_infos self) ->
  annos info = None ->
  evaluate once_eval self results (Some prefix) tmp_name fs
  = (Raise (KeyError "annos"), fs1) /\
  tmp_dir = None /\
  (forall p, result_files = Path p -> dict_mem (fs_files fs1) p = true) /\
  (forall d name p, result_files = PathDict d -> In (name, p) d ->
                    dict_mem (fs_files fs1) p = true).
Proof.
  intros Hfmt Hin Hnone. split.
  - unfold evaluate. rewrite Hfmt.
    destruct (collect_gt_annos_cases self) as [[HF _]|[_ Hr]].
    + rewrite Forall_forall in HF. now elim (HF info Hin).
    + now rewrite Hr.
  - destruct results as [l|]; [|discriminate].
    cbn [format_results] in Hfmt.
    destruct (negb (Nat.eqb (List.length l) (len_dataset self)));
      [discriminate|].
    destruct l as [|r0 rest]; [discriminate|].
    assert (Htmp : tmp_dir = None).
    { destruct (negb (result_mem r0 "pts_bbox" || result_mem r0 "img_bbox")).
      - destruct (_format_results self (r0 :: rest) (Some prefix) fs)
          as [[p|] fs2]; [|discriminate]. now injection Hfmt as _ <- _.
      - destruct (format_modalities self (r0 :: rest) prefix (result_keys r0)
                    [] fs) as [[d|] fs2]; [|discriminate].
        now injection Hfmt as _ <- _. }
    split; [exact Htmp|].
    destruct (format_results_branches self r0 rest prefix fs result_files fs1)
      as [Hplain Hmodal].
    { destruct (negb (result_mem r0 "pts_bbox" || result_mem r0 "img_bbox")).
      - destruct (_format_results self (r0 :: rest) (Some prefix) fs)
          as [[p|] fs2]; [|discriminate]. now injection Hfmt as <- _ <-.
      - destruct (format_modalities self (r0 :: rest) prefix (result_keys r0)
                    [] fs) as [[d|] fs2]; [|discriminate].
        now injection Hfmt as <- _ <-. }
    destruct (result_mem r0 "pts_bbox" || result_mem r0 "img_bbox")%bool eqn:Hm.
    + destruct Hmodal as (d & Hd & _ & _ & _ & Hfiles).
      { destruct (result_mem r0 "pts_bbox"); [now left|]. right.
        exact Hm. }
      split.
      * intros p Hp. rewrite Hd in Hp. discriminate.
      * intros d' name p Hd' Hinp. rewrite Hd in Hd'. injection Hd' as <-.
        exact (proj2 (Hfiles name p Hinp)).
    + apply orb_false_iff in Hm.
      destruct (Hplain Hm) as (Hrf & records & _ & Hg).
      split.
      * intros p Hp. rewrite Hrf in Hp.
        assert (Ep : p = path_join prefix ["results_once.json"])
          by congruence.
        rewrite Ep. unfold dict_mem. now rewrite Hg.
      * intros d name p Hd. rewrite Hrf in Hd. discriminate.
Qed.

End GroundTruthSelection.

(** ** Rounding *)

Lemma round_half_even_IZR (n : Z) : round_half_even (IZR n) = n.
Proof.
  unfold round_half_even.
  assert (H : Int_part (IZR n) = n)
    by (symmetry; apply Int_part_spec; lra).
  rewrite H. destruct (Rlt_dec (IZR n - IZR n) (1 / 2)); [reflexivity|lra].
Qed.

(** X15: [float('{:.4f}'.format(ap))] leaves a multiple of [1/10000] as it
    is, so rounding twice is rounding once. *)
Theorem format_4f_idempotent (x : R) (n : Z) :
  format_4f (IZR n / 10000) = IZR n / 10000 /\
  format_4f (format_4f x) = format_4f x.
Proof.
  assert (H : forall k, format_4f (IZR k / 10000) = IZR k / 10000).
  { intros k. unfold format_4f.
    replace (IZR k / 10000 * 10000) with (IZR k) by (field; lra).
    now rewrite round_half_even_IZR. }
  split; [apply H|]. unfold format_4f at 2. apply H.
Qed.

(** ** Republished metrics *)

Lemma append_inj_r (a b c : string) :
  String.append a b = String.append a c -> b = c.
Proof.
  induction a as [|ch a IH]; cbn; [auto|].
  intros H. injection H as H. auto.
Qed.

Lemma metric_key_inj (name k k' : string) :
  metric_key name k = metric_key name k' -> k = k'.
Proof.
  unfold metric_key. intros H. apply append_inj_r in H.
  now apply append_inj_r in H.
Qed.

Lemma dict_set_fresh {V : Type} (d : dict V) (k : string) (v : V) :
  ~ In k (dict_keys d) -> dict_set d k v = d ++ [(k, v)].
Proof.
  induction d as [|[k0 v0] t IH]; cbn; [reflexivity|].
  intros H. destruct (String.eqb k0 k) eqn:E.
  - apply String.eqb_eq in E. elim H. now left.
  - f_equal. apply IH. intros Hin. apply H. now right.
Qed.

Lemma republish_fresh (name : string) (ap : dict R) :
  forall acc : dict R,
    NoDup (dict_keys ap) ->
    (forall k, In k (dict_keys ap) ->
               ~ In (metric_key name k) (dict_keys acc)) ->
    republish name ap acc
    = acc ++ map (fun kv => (metric_key name (fst kv), format_4f (snd kv))) ap.
Proof.
  unfold republish.
  induction ap as [|[k x] t IH]; intros acc Hnd Hfresh; cbn [fold_left map].
  - now rewrite app_nil_r.
  - cbn [dict_keys map fst] in Hnd. inversion Hnd as [|? ? Hk Ht]; subst.
    cbn [fst snd]. fold (metric_key name k).
    rewrite dict_set_fresh; [|apply Hfresh; now left].
    rewrite IH; [now rewrite <- app_assoc|exact Ht|].
    intros k' Hk'. unfold dict_keys. rewrite map_app, in_app_iff.
    intros [Hin|[Hin|[]]].
    + apply (Hfresh k'); [now right|exact Hin].
    + cbn in Hin. apply metric_key_inj in Hin. subst k'. contradiction.
Qed.

Section SingleModality.

Variable once_eval :
  FileSystem -> list Annos -> string -> list string -> option (list string) ->
  outcome (string * dict R).

(** X16: with one modality whose metric names are distinct, [evaluate]
    returns the metrics in the order the metric function gave them, each
    under [modality/metric] and rounded to four decimals, and nothing
    else. *)
Theorem evaluate_single_modality (self : OnceDataset) (results : PyResults)
  (jsonfile_prefix : option string) (tmp_name : string) (fs : FileSystem)
  (name file : string) (tmp_dir : option string) (fs1 : FileSystem)
  (gt : list Annos) (s : string) (ap : dict R) :
  format_results self results jsonfile_prefix tmp_name fs
  = (Ok (PathDict [(name, file)], tmp_dir), fs1) ->
  collect_gt_annos self = Ok gt ->
  once_eval fs1 gt file (CLASSES self) (Some ["Overall&Distance"])
  = Ok (s, ap) ->
  NoDup (dict_keys ap) ->
  evaluate once_eval self results jsonfile_prefix tmp_name fs
  = (Ok (map (fun kv => (metric_key name (fst kv), format_4f (snd kv))) ap),
     cleanup tmp_dir fs1).
Proof.
  intros Hfmt Hgt Hev Hnd. unfold evaluate. rewrite Hfmt, Hgt.
  cbn [evaluate_modalities]. rewrite Hev. cbn [bind].
  rewrite republish_fresh; [reflexivity|exact Hnd|].
  intros k _ [].
Qed.

End SingleModality.

(** ** Paths and the temporary directory *)

Lemma append_assoc (a b c : string) :
  String.append (String.append a b) c = String.append a (String.append b c).
Proof. induction a as [|ch a IH]; cbn; [reflexivity|now rewrite IH]. Qed.

Lemma prefix_append (a b : string) : String.prefix a (String.append a b) = true.
Proof.
  induction a as [|ch a IH]; cbn; [now destruct b|].
  destruct (ascii_dec ch ch) as [_|N]; [exact IH|now elim N].
Qed.

Lemma list_ascii_of_append (a b : string) :
  list_ascii_of_string (String.append a b)
  = list_ascii_of_string a ++ list_ascii_of_string b.
Proof. induction a as [|ch a IH]; cbn; [reflexivity|now rewrite IH]. Qed.

Lemma ends_with_sep_append (a : string) (ch : ascii) (b : string) :
  ends_with_sep (String.append a (String ch b)) = ends_with_sep (String ch b).
Proof.
  unfold ends_with_sep. rewrite list_ascii_of_append, rev_app_distr.
  destruct (rev (list_ascii_of_string (String ch b))) as [|c t] eqn:E;
    [|reflexivity].
  apply (f_equal (@List.length ascii)) in E. rewrite length_rev in E.
  discriminate.
Qed.

(** Where the result file goes when the prefix is made from a temporary
    directory. *)
Lemma temporary_result_path (tmp_name : string) :
  tmp_name <> "" -> ends_with_sep tmp_name = false ->
  path_join (path_join tmp_name ["results"]) ["results_once.json"]
  = String.append tmp_name "/results/results_once.json" /\
  under tmp_name (String.append tmp_name "/results/results_once.json") = true.
Proof.
  intros Hne Hsep. split.
  - assert (E1 : path_join2 tmp_name "results"
                 = String.append tmp_name "/results").
    { unfold path_join2. cbn [String.prefix].
      destruct (ascii_dec "/" "r"); [discriminate|].
      destruct (String.eqb_spec tmp_name ""); [contradiction|].
      rewrite Hsep. reflexivity. }
    assert (E2 : path_join2 (String.append tmp_name "/results")
                            "results_once.json"
                 = String.append (String.append tmp_name "/results")
                                 "/results_once.json").
    { unfold path_join2. cbn [String.prefix].
      destruct (ascii_dec "/" "r"); [discriminate|].
      rewrite (ends_with_sep_append tmp_name "/" "results").
      destruct (String.eqb_spec (String.append tmp_name "/results") "") as [E|_];
        [destruct tmp_name; discriminate|].
      reflexivity. }
    cbn [path_join fold_left]. rewrite E1, E2. now rewrite append_assoc.
  - unfold under.
    change "/results/results_once.json"
      with (String.append "/" "results/results_once.json").
    rewrite <- append_assoc, prefix_append. apply orb_true_r.
Qed.

Lemma dict_get_set_other {V : Type} (d : dict V) (k k' : string) (v : V) :
  k <> k' -> dict_get (dict_set d k v) k' = dict_get d k'.
Proof.
  intros Hne. induction d as [|[k0 v0] t IH]; cbn.
  - destruct (String.eqb_spec k k'); [contradiction|reflexivity].
  - destruct (String.eqb_spec k0 k) as [->|_]; cbn.
    + destruct (String.eqb_spec k k'); [contradiction|reflexivity].
    + destruct (String.eqb k0 k'); [reflexivity|exact IH].
Qed.

Lemma dict_get_filter {V : Type} (keep : string -> bool) (d : dict V)
  (k : string) :
  dict_get (filter (fun kv => keep (fst kv)) d) k
  = if keep k then dict_get d k else None.
Proof.
  induction d as [|[k0 v0] t IH]; cbn; [now destruct (keep k)|].
  destruct (String.eqb_spec k0 k) as [->|Hne].
  - destruct (keep k) eqn:E; cbn.
    + now rewrite String.eqb_refl.
    + exact IH.
  - destruct (keep k0); cbn; [|exact IH].
    destruct (String.eqb_spec k0 k); [contradiction|exact IH].
Qed.

Section TemporaryDirectory.

Variable once_eval :
  FileSystem -> list Annos -> string -> list string -> option (list string) ->
  outcome (string * dict R).

(** X17: without a prefix and with plain results, [evaluate] writes its
    result file under the temporary directory, hands that path to the
    metric function, and removes file and directory before it returns;
    every file outside the temporary directory is as it was before the
    call. *)
Theorem evaluate_cleans_temporary (self : OnceDataset) (r0 : Result)
  (rest : list Result) (tmp_name : string) (fs : FileSystem)
  (value : ResultFiles * option string) (fs1 : FileSystem)
  (gt : list Annos) (s : string) (ap : dict R) :
  tmp_name <> "" -> ends_with_sep tmp_name = false ->
  result_mem r0 "pts_bbox" = false -> result_mem r0 "img_bbox" = false ->
  format_results self (ResultList (r0 :: rest)) None tmp_name fs
  = (Ok value, fs1) ->
  collect_gt_annos self = Ok gt ->
  once_eval fs1 gt (String.append tmp_name "/results/results_once.json")
            (CLASSES self) None = Ok (s, ap) ->
  let p := String.append tmp_name "/results/results_once.json" in
  value = (Path p, Some tmp_name) /\
  dict_mem (fs_files fs1) p = true /\
  exists fs2,
    evaluate once_eval self (ResultList (r0 :: rest)) None tmp_name fs
    = (Ok ap, fs2) /\
    dict_mem (fs_files fs2) p = false /\
    ~ In tmp_name (fs_dirs fs2) /\
    forall path, under tmp_name path = false ->
                 dict_get (fs_files fs2) path = dict_get (fs_files fs) path.
Proof.
  intros Hne Hsep H1 H2 Hfmt Hgt Hev. cbv zeta.
  destruct (temporary_result_path tmp_name Hne Hsep) as [Hpath Hunder].
  pose proof Hfmt as Hrun. cbn [format_results] in Hrun.
  destruct (negb (Nat.eqb (List.length (r0 :: rest)) (len_dataset self)));
    [discriminate|].
  rewrite H1, H2 in Hrun. cbn [orb negb] in Hrun.
  destruct (_format_results self (r0 :: rest)
              (Some (path_join tmp_name ["results"]))
              (mkFS (fs_dirs fs ++ [tmp_name]) (fs_files fs)))
    as [[q|] fs1'] eqn:Hf; [|discriminate].
  injection Hrun as <- <-.
  destruct (format_results_inner _ _ _ _ _ _ Hf)
    as (Hq & records & _ & Hfs1 & Hg).
  rewrite Hpath in Hq. subst q.
  split; [reflexivity|].
  split; [unfold dict_mem; now rewrite Hg|].
  eexists. split.
  - unfold evaluate. rewrite Hfmt, Hgt, Hev. reflexivity.
  - cbn [cleanup fs_files fs_dirs].
    split; [|split].
    + unfold dict_mem.
      rewrite (dict_get_filter (fun k => negb (under tmp_name k))).
      now rewrite Hunder.
    + rewrite filter_In. intros [_ H]. unfold under in H.
      rewrite String.eqb_refl in H. discriminate.
    + intros path Hout.
      rewrite (dict_get_filter (fun k => negb (under tmp_name k))).
      rewrite Hout. cbn [negb]. rewrite Hfs1. cbn [fs_files dump].
      rewrite dict_get_set_other.
      * now rewrite (proj1 (mkdir_or_exist_keeps _ _)).
      * intros E. rewrite <- E, Hunder in Hout. discriminate.
Qed.

End TemporaryDirectory.

(** ** Calibration *)


Section Calibration.

Variable convert_other : BoxMode -> list Box -> list Box.
Variable pre_pipeline : OnceDataset -> InputDict -> InputDict.
Variable pipeline : InputDict -> option Example.



(** X19: when the camera-to-lidar matrix has the last row [(0, 0, 0, 1)] of
    a rigid transform, the matrix [get_data_info] stores for the camera has
    the last column [(0, 0, 0, 1)]: the camera's position does not enter
    its first three rows. *)
Theorem lidar2img_last_column (self : OnceDataset) (info : Info)
  (camera : string) (c : CamCalib) (img : string) (M : mat4) :
  dict_get (calib info) camera = Some c ->
  bottom_row (cam_to_velo c) = (0, 0, 0, 1) ->
  camera_entry self info camera = Ok (img, M) ->
  last_column M = (0, 0, 0, 1).
Proof.
  intros Hc Hrow. unfold camera_entry. rewrite Hc. unfold linalg_inv.
  destruct (Req_dec_T (det4 (cam_to_velo c)) 0) as [|Hdet]; cbn [bind];
    [discriminate|].
  intros H. injection H as _ <-.
  destruct (cam_intrinsic c) as [[k0 k1] k2].
  destruct k0 as [[k00 k01] k02], k1 as [[k10 k11] k12],
           k2 as [[k20 k21] k22].
  destruct (cam_to_velo c) as [[[r0 r1] r2] r3].
  destruct r0 as [[[a00 a01] a02] a03], r1 as [[[a10 a11] a12] a13],
           r2 as [[[a20 a21] a22] a23].
  cbn [bottom_row] in Hrow. subst r3.
  unfold det4 in Hdet.
  unfold last_column, bottom_row, matmul4, viewpad_of, transpose4, scale4,
    adj4, det4, dot4.
  repeat (apply f_equal2); field; lra.
Qed.

(** X20: in test mode, on a calibrated frame, [prepare_train_data] raises
    [KeyError] of ['ann_info'], with the dataset untouched: [get_data_info]
    leaves the key out and the test that follows looks it up. *)
Theorem prepare_train_data_test_mode (self : OnceDataset) (index : Z)
  (info : Info) :
  py_getitem (data_infos self) index = Some info ->
  test_mode self = true ->
  calibrated info ->
  prepare_train_data convert_other pre_pipeline pipeline self index
  = (Raise (KeyError "ann_info"), self).
Proof.
  intros Hget Htest Hcal.
  destruct (camera_loop_total self info Hcal) as [entries [Hloop _]].
  unfold prepare_train_data.
  rewrite (get_data_info_unfold convert_other self index info entries
             Hget Hloop).
  cbv zeta. rewrite Htest. reflexivity.
Qed.

End Calibration.

(** ** These properties on the sample data *)

Lemma get_ann_info_frame_witness :
  touches_only_boxes_at demo_dataset 0
    (snd (get_ann_info demo_convert_other demo_dataset 0)).
Proof.
  exact (proj1 (get_ann_info_frame demo_convert_other demo_dataset 0 _ _
                  (surjective_pairing _))).
Defined.

Lemma prepare_train_data_frame_witness :
  snd (get_data_info demo_convert_other test_dataset 0) = test_dataset.
Proof.
  destruct (prepare_train_data_frame demo_convert_other demo_pre_pipeline
              demo_pipeline test_dataset 0) as (_ & _ & H).
  exact (H eq_refl).
Defined.

Lemma get_ann_info_index_witness :
  get_ann_info demo_convert_other demo_dataset (-1)
  = get_ann_info demo_convert_other demo_dataset 1.
Proof.
  destruct (get_ann_info_index demo_convert_other demo_dataset (-1))
    as [_ H].
  apply H. cbn. lia.
Defined.

Lemma get_ann_info_four_calls_witness :
  py_getitem (data_infos one_frame_dataset) 0 = Some demo_info /\
  stored_boxes (after_get_ann_info demo_convert_other 4 one_frame_dataset 0) 0
  = Some (map (fun p => set_yaw p (yaw p + 2 * PI)) [demo_box; demo_box2]).
Proof.
  split; [reflexivity|].
  destruct (get_ann_info_four_calls demo_convert_other one_frame_dataset 0
              demo_info (mkAnnos ["Car"; "Tram"] [demo_box; demo_box2])
              demo_box [demo_box2] eq_refl eq_refl eq_refl) as (_ & H & _).
  exact H.
Defined.

Lemma names_of_labels_bounds_witness :
  exists names, names_of_labels default_CLASSES [1; 5; -4]%Z = Ok names /\
                List.length names = 3%nat.
Proof.
  destruct (names_of_labels_bounds default_CLASSES [1; 5; -4]%Z) as [H _].
  apply H. repeat constructor; cbn; lia.
Defined.

Lemma label_of_round_trip_witness :
  names_of_labels default_CLASSES [(label_of default_CLASSES "Bus" + 1)%Z]
  = Ok ["Bus"].
Proof.
  destruct (label_of_round_trip default_CLASSES "Bus") as (_ & H & _).
  apply H. cbn. auto.
Defined.

Lemma format_results_records_witness :
  exists records fs',
    _format_results one_frame_dataset demo_results (Some "out") empty_fs
    = (Ok "out/results_once.json", fs') /\
    dict_get (fs_files fs') "out/results_once.json" = Some records /\
    map pred_frame_id records = ["000076"].
Proof.
  destruct (format_results_records one_frame_dataset demo_results "out"
              empty_fs "out/results_once.json"
              (snd (_format_results one_frame_dataset demo_results
                      (Some "out") empty_fs)) eq_refl)
    as (records & Hg & _ & Hids & _).
  exists records. eexists. split; [reflexivity|]. split; [exact Hg|exact Hids].
Defined.

Lemma format_results_never_deletes_witness :
  dict_mem (fs_files stocked_fs) "old/keep.json" = true /\
  dict_mem
    (fs_files (snd (format_results one_frame_dataset (ResultList demo_results)
                      (Some "out") "tmp" stocked_fs)))
    "old/keep.json" = true.
Proof.
  split; [reflexivity|].
  destruct (format_results_never_deletes one_frame_dataset
              (ResultList demo_results) (Some "out") "tmp" stocked_fs _ _
              (surjective_pairing _)) as [H _].
  apply H. reflexivity.
Defined.



Lemma format_results_missing_modality_witness :
  List.length demo_uneven_results = len_dataset labelled_dataset /\
  format_results labelled_dataset (ResultList demo_uneven_results)
                 (Some "out") "tmp" empty_fs
  = (Raise (KeyError "pts_bbox"), empty_fs).
Proof.
  split; [reflexivity|].
  apply (format_results_missing_modality labelled_dataset "pts_bbox"
           demo_detection [] [Multi [("img_bbox", demo_detection)]]
           "out" "tmp" empty_fs).
  - reflexivity.
  - left. reflexivity.
  - constructor; [eauto|constructor].
  - constructor. eexists. split; reflexivity.
Defined.

Lemma filtered_data_infos_spec_witness :
  filtered_data_infos demo_dataset = [demo_info] /\
  ~ exists gt, collect_gt_annos demo_dataset = Ok gt.
Proof.
  split; [reflexivity|].
  destruct (filtered_data_infos_spec demo_convert_other demo_dataset)
    as (_ & H & _).
  intros Hgt. apply H in Hgt. discriminate.
Defined.

Lemma evaluate_needs_annotations_witness :
  In unlabelled_info (data_infos demo_dataset) /\
  annos unlabelled_info = None /\
  exists fs1,
    format_results demo_dataset (ResultList demo_pair_results) (Some "out")
                   "tmp" empty_fs
    = (Ok (Path "out/results_once.json", None), fs1) /\
    evaluate demo_once_eval demo_dataset (ResultList demo_pair_results)
             (Some "out") "tmp" empty_fs
    = (Raise (KeyError "annos"), fs1) /\
    dict_mem (fs_files fs1) "out/results_once.json" = true.
Proof.
  split; [right; now left|]. split; [reflexivity|].
  destruct (evaluate_needs_annotations demo_once_eval demo_dataset
              (ResultList demo_pair_results) "out" "tmp" empty_fs
              (Path "out/results_once.json") None
              (snd (format_results demo_dataset (ResultList demo_pair_results)
                      (Some "out") "tmp" empty_fs))
              unlabelled_info eq_refl (or_intror (or_introl eq_refl)) eq_refl)
    as (Hrun & _ & Hfile & _).
  exists (snd (format_results demo_dataset (ResultList demo_pair_results)
                 (Some "out") "tmp" empty_fs)).
  split; [reflexivity|]. split; [exact Hrun|]. exact (Hfile _ eq_refl).
Defined.

Lemma demo_metric_names_distinct :
  NoDup (dict_keys [("AP_Car/overall", 0.03125); ("AP_Bus/overall", 0.5)]).
Proof.
  cbn. constructor; [intros [H|[]]; discriminate|].
  constructor; [intros []|constructor].
Defined.

Lemma evaluate_single_modality_witness :
  exists fs2,
    evaluate demo_once_eval one_frame_dataset (ResultList demo_modal_results)
             (Some "out") "tmp" empty_fs
    = (Ok [("pts_bbox/AP_Car/overall", format_4f 0.03125);
           ("pts_bbox/AP_Bus/overall", format_4f 0.5)], fs2).
Proof.
  eexists.
  apply (evaluate_single_modality demo_once_eval one_frame_dataset
           (ResultList demo_modal_results) (Some "out") "tmp" empty_fs
           "pts_bbox" "out/pts_bbox/results_once.json" None _
           [mkAnnos ["Car"; "Tram"] [demo_box; demo_box2]] "AP"
           [("AP_Car/overall", 0.03125); ("AP_Bus/overall", 0.5)]
           eq_refl eq_refl eq_refl demo_metric_names_distinct).
Defined.

Lemma evaluate_cleans_temporary_witness :
  exists fs2,
    evaluate demo_once_eval one_frame_dataset (ResultList demo_results)
             None "tmp0" stocked_fs
    = (Ok [("AP_Car/overall", 0.03125); ("AP_Bus/overall", 0.5)], fs2) /\
    dict_mem (fs_files fs2) "tmp0/results/results_once.json" = false /\
    ~ In "tmp0" (fs_dirs fs2) /\
    dict_get (fs_files fs2) "old/keep.json" = Some [].
Proof.
  assert (Hne : "tmp0" <> "") by discriminate.
  destruct (evaluate_cleans_temporary demo_once_eval one_frame_dataset
              (Single demo_detection) [] "tmp0" stocked_fs
              (Path "tmp0/results/results_once.json", Some "tmp0")
              (snd (format_results one_frame_dataset (ResultList demo_results)
                      None "tmp0" stocked_fs))
              [mkAnnos ["Car"; "Tram"] [demo_box; demo_box2]] "AP"
              [("AP_Car/overall", 0.03125); ("AP_Bus/overall", 0.5)]
              Hne eq_refl eq_refl eq_refl eq_refl eq_refl eq_refl)
    as (_ & _ & fs2 & Hrun & Hgone & Hdir & Hkeep).
  exists fs2. split; [exact Hrun|]. split; [exact Hgone|].
  split; [exact Hdir|]. rewrite (Hkeep "old/keep.json" eq_refl). reflexivity.
Defined.


Lemma lidar2img_last_column_witness :
  bottom_row (cam_to_velo demo_calib) = (0, 0, 0, 1) /\
  exists img M,
    camera_entry demo_dataset demo_info "cam01" = Ok (img, M) /\
    last_column M = (0, 0, 0, 1).
Proof.
  split; [reflexivity|].
  destruct (camera_entry_calibrated demo_dataset demo_info "cam01" demo_calib
              eq_refl det4_shift_x) as [L [_ H]].
  eexists _, _. split; [exact H|].
  exact (lidar2img_last_column demo_dataset demo_info "cam01" demo_calib _ _
           eq_refl eq_refl H).
Defined.

Lemma prepare_train_data_test_mode_witness :
  py_getitem (data_infos test_dataset) 0 = Some demo_info /\
  test_mode test_dataset = true /\
  prepare_train_data demo_convert_other demo_pre_pipeline demo_pipeline
                     test_dataset 0
  = (Raise (KeyError "ann_info"), test_dataset).
Proof.
  split; [reflexivity|]. split; [reflexivity|].
  exact (prepare_train_data_test_mode demo_convert_other demo_pre_pipeline
           demo_pipeline test_dataset 0 demo_info eq_refl eq_refl
           (demo_cameras_calibrated demo_info eq_refl)).
Defined.
